(** * LatestBrowsingHistory: a shallow embedding of LatestBrowsingHistory.cpp

    The program copies the (locked) Chrome and Edge [History] SQLite
    databases to a temporary file, runs one join query over the copy and
    prints the URLs visited within the last ten minutes.

    The model follows the source function by function.  Windows, CRT and
    SQLite calls are modelled by the effect they have on an explicit world
    (file system, clock, console), threaded through a small state monad
    that can also end the process (undefined behaviour of the C++ code,
    or the CRT's invalid parameter handler). *)

From Stdlib Require Import ZArith String Ascii List Bool Lia Sorted Permutation.
Import ListNotations.
Open Scope Z_scope.

(** ** Machine integers *)

Definition int64_min : Z := - 2 ^ 63.
Definition int64_max : Z := 2 ^ 63 - 1.
Definition in_int64 (z : Z) : Prop := int64_min <= z <= int64_max.

(** Two's complement wrap-around of a 64-bit signed result. *)
Definition wrap64 (z : Z) : Z := (z + 2 ^ 63) mod 2 ^ 64 - 2 ^ 63.

(** ** Wide strings

    [std::wstring] is a list of UTF-16 code units; [W] turns an ASCII
    literal ([L"..."] in the source) into one. *)

Definition wstring := list Z.

Definition W (s : string) : wstring :=
  map (fun c => Z.of_nat (nat_of_ascii c)) (list_ascii_of_string s).

(** [wprintf("%s", s.c_str())] prints up to the first NUL code unit. *)
Fixpoint c_str (s : wstring) : wstring :=
  match s with
  | [] => []
  | c :: s' => if c =? 0 then [] else c :: c_str s'
  end.

(** ** ConvertWebKitToUnixTime (lines 17-20)

    [webkitTime / 1000000] is C++ integer division, truncating toward zero
    ([Z.quot]); the subtraction is done on [int64_t]. *)

Definition ConvertWebKitToUnixTime (webkitTime : Z) : Z :=
  wrap64 (Z.quot webkitTime 1000000 - 11644473600).

(** [difftime(t1, t0)] ([_difftime64] of the CRT) first checks
    [_VALIDATE_RETURN_NOEXC(t1 >= 0 && t0 >= 0, EINVAL, 0)]: a negative
    time sets [errno] to [EINVAL] and the result is 0.  Otherwise it is
    [t1 - t0] as a [double]; for the time values of this program (below
    2^53 in magnitude) the conversion is exact. *)
Definition difftime (time1 time0 : Z) : Z :=
  if (time1 <? 0) || (time0 <? 0) then 0 else time1 - time0.

(** ** ConvertUtf8ToWide (lines 23-42)

    [MultiByteToWideChar(CP_UTF8, 0, s, -1, ...)] decodes the bytes up to
    and including the terminating NUL.  Without [MB_ERR_INVALID_CHARS] an
    ill-formed sequence becomes U+FFFD (one per offending lead byte here). *)

Definition is_cont (b : Z) : bool := (128 <=? b) && (b <? 192).

Definition utf16_of_scalar (c : Z) : list Z :=
  if c <? 65536 then [c]
  else [55296 + (c - 65536) / 1024; 56320 + (c - 65536) mod 1024].

Fixpoint utf8_decode (bs : list Z) : list Z :=
  match bs with
  | [] => []
  | b0 :: r0 =>
      if b0 <? 128 then b0 :: utf8_decode r0
      else match r0 with
           | b1 :: r1 =>
               if (194 <=? b0) && (b0 <=? 223) && is_cont b1 then
                 (b0 - 192) * 64 + (b1 - 128) :: utf8_decode r1
               else match r1 with
                    | b2 :: r2 =>
                        let c3 := (b0 - 224) * 4096 + (b1 - 128) * 64 + (b2 - 128) in
                        if (224 <=? b0) && (b0 <=? 239) && is_cont b1 && is_cont b2
                           && (2048 <=? c3) && negb ((55296 <=? c3) && (c3 <=? 57343)) then
                          c3 :: utf8_decode r2
                        else match r2 with
                             | b3 :: r3 =>
                                 let c4 := (b0 - 240) * 262144 + (b1 - 128) * 4096
                                           + (b2 - 128) * 64 + (b3 - 128) in
                                 if (240 <=? b0) && (b0 <=? 244) && is_cont b1 && is_cont b2
                                    && is_cont b3 && (65536 <=? c4) && (c4 <=? 1114111) then
                                   utf16_of_scalar c4 ++ utf8_decode r3
                                 else 65533 :: utf8_decode r0
                             | [] => 65533 :: utf8_decode r0
                             end
                    | [] => 65533 :: utf8_decode r0
                    end
           | [] => 65533 :: utf8_decode r0
           end
  end.

(** The bytes of a C string ([std::string] built from [const char*]). *)
Fixpoint bytes_of (s : string) : list Z :=
  match s with
  | EmptyString => []
  | String c s' =>
      let b := Z.of_nat (nat_of_ascii c) in
      if b =? 0 then [] else b :: bytes_of s'
  end.

(** Result of [MultiByteToWideChar(CP_UTF8, 0, s, -1, out, n)]: the code
    units written, the terminating NUL included; its length is the count
    returned by the sizing call. *)
Definition MultiByteToWideChar (s : list Z) : wstring := utf8_decode s ++ [0].

Definition ConvertUtf8ToWide (utf8Str : list Z) : wstring :=
  match utf8Str with
  | [] => []
  | _ =>
      let wideCharCount := Z.of_nat (length (MultiByteToWideChar utf8Str)) in
      if wideCharCount =? 0 then []
      else MultiByteToWideChar utf8Str
  end.

(** ** Outcomes

    A computation of the program either returns a value or ends the
    process: undefined behaviour of the C++ code, or the CRT's invalid
    parameter handler, whose default ends the process. *)

Inductive outcome (A : Type) :=
  | Ret (a : A)
  | Crash.
Arguments Ret {A} a.
Arguments Crash {A}.

(** ** gmtime_s and wcsftime (CRT functions used by FormatUnixTimeToUTC)

    The CRT's [gmtime_s] ([_gmtime64_s]) validates the time with
    [_VALIDATE_RETURN_ERRCODE_NOEXC(t >= _MIN_LOCAL_TIME, EINVAL)], which
    returns [EINVAL] quietly, and then with
    [_VALIDATE_RETURN_ERRCODE(t <= _MAX__TIME64_T + _MAX_LOCAL_TIME, EINVAL)],
    which calls the invalid parameter handler: by default the process
    ends.  The slack [_MIN_LOCAL_TIME = -12 h], [_MAX_LOCAL_TIME = 13 h]
    is there for [localtime].  A time in between is broken down into UTC
    (the usual 400-year-era computation of the calendar). *)

Definition MAX_TIME64_T : Z := 32535215999.   (* 3000-12-31 23:59:59 UTC *)
Definition MIN_LOCAL_TIME : Z := -12 * 3600.
Definition MAX_LOCAL_TIME : Z := 13 * 3600.

Record tm := mk_tm {
  tm_year : Z;  (* full year *)
  tm_mon : Z;   (* 1..12 *)
  tm_mday : Z;
  tm_hour : Z;
  tm_min : Z;
  tm_sec : Z }.

(** Year of era, month and day of a day of a 400-year era
    (eras start on March 1st). *)
Definition civil_of_doe (doe : Z) : Z * Z * Z :=
  let yoe := (doe - doe / 1460 + doe / 36524 - doe / 146096) / 365 in
  let doy := doe - (365 * yoe + yoe / 4 - yoe / 100) in
  let mp := (5 * doy + 2) / 153 in
  let d := doy - (153 * mp + 2) / 5 + 1 in
  let m := if mp <? 10 then mp + 3 else mp - 9 in
  (yoe, m, d).

Definition civil_from_days (days : Z) : Z * Z * Z :=
  let z := days + 719468 in
  let era := z / 146097 in
  let doe := z - era * 146097 in
  let '(yoe, m, d) := civil_of_doe doe in
  let y := yoe + era * 400 in
  ((if m <=? 2 then y + 1 else y), m, d).

(** [Ret None]: the call returns [EINVAL]; [Ret (Some tm)]: it returns 0. *)
Definition gmtime_s (t : Z) : outcome (option tm) :=
  if t <? MIN_LOCAL_TIME then Ret None
  else if MAX_TIME64_T + MAX_LOCAL_TIME <? t then Crash
  else
    let days := t / 86400 in
    let secs := t mod 86400 in
    let '(y, m, d) := civil_from_days days in
    Ret (Some (mk_tm y m d (secs / 3600) (secs mod 3600 / 60) (secs mod 60))).

(** Decimal rendering, as [%Y] prints the year. *)
Definition digit (d : Z) : ascii := ascii_of_nat (48 + Z.to_nat d).

Fixpoint dec_aux (fuel : nat) (n : Z) (acc : string) : string :=
  match fuel with
  | O => acc
  | S f =>
      let acc' := String (digit (n mod 10)) acc in
      if n <? 10 then acc' else dec_aux f (n / 10) acc'
  end.

Definition dec (n : Z) : string := dec_aux 20 n EmptyString.

(** Two-digit, zero-padded rendering ([%m], [%d], [%H], [%M], [%S]). *)
Definition pad2 (n : Z) : string :=
  if n <? 10 then String "0" (dec n) else dec n.

(** [wcsftime(buffer, ..., L"%Y-%m-%d %H:%M:%S", &timeInfo)]; the
    result (19 characters) fits the 80-character buffer. *)
Definition wcsftime_ymdhms (ti : tm) : wstring :=
  W (dec (tm_year ti) ++ "-" ++ pad2 (tm_mon ti) ++ "-" ++ pad2 (tm_mday ti) ++ " "
     ++ pad2 (tm_hour ti) ++ ":" ++ pad2 (tm_min ti) ++ ":" ++ pad2 (tm_sec ti)).

(** ** FormatUnixTimeToUTC (lines 56-67) *)

Definition FormatUnixTimeToUTC (unixTime : Z) : outcome wstring :=
  match gmtime_s unixTime with
  | Crash => Crash
  | Ret None => Ret (W "Invalid time")
  | Ret (Some timeInfo) => Ret (wcsftime_ymdhms timeInfo)
  end.

(** ** The world: file system, temporary area, clock, console *)

(** What a file holds, as far as SQLite is concerned.  A [History] database
    has the tables [urls(id, url)] and [visits(url, visit_time)]; a
    [NULL] url is [None]. *)
Record history_tables := mk_tables {
  urls : list (Z * option string);
  visits : list (Z * Z) }.

Inductive content :=
  | EmptyFile                                (* zero bytes *)
  | OtherFile                                (* bytes that are no SQLite database *)
  | SqliteDb (tables : option history_tables). (* [None]: no [urls]/[visits] tables *)

Record file := mk_file {
  f_data : content;
  f_mtime : Z;
  f_share_read : bool }.   (* whether another process's lock still allows reading *)

(** One line written by [wprintf]. *)
Inductive line :=
  | LText (s : wstring)
  | LCopyException (what : wstring)     (* "Failed to copy database: %s" *)
  | LCopyFailed (dbPath : wstring)      (* "Failed to copy database to temporary file: %s" *)
  | LOpenFailed (tempDbPath : wstring)  (* "Failed to open database: %s" *)
  | LPrepareFailed (errmsg : string)    (* "Failed to prepare statement: %S" *)
  | LEntry (url : wstring) (visitTime : wstring).  (* "URL: %s, Visit Time (UTC): %s" *)

Definition nl : wstring := [10].


Record world := mk_world {
  w_fs : wstring -> option file;
  w_temp_path : option wstring;   (* GetTempPathW, with its trailing backslash *)
  w_temp_writable : bool;         (* GetTempFileNameW can create files there *)
  w_unique : nat -> Z;            (* the unique number the system time gives the k-th
                                     GetTempFileNameW call *)
  w_temp_calls : nat;
  w_copy_error : wstring -> option string;
                                  (* the error the OS reports, if any, when copy_file
                                     reads this source or writes its copy (access
                                     denied, disk full, ...) *)
  w_clock : Z;                    (* std::time(nullptr) *)
  w_profile : option wstring;     (* SHGetFolderPathW(CSIDL_PROFILE) *)
  w_open_ok : nat -> bool;        (* whether the k-th sqlite3_open16 call succeeds *)
  w_open_calls : nat;
  w_out : list line }.

Definition path_eqb (p q : wstring) : bool :=
  if list_eq_dec Z.eq_dec p q then true else false.

Definition fs_set (fs : wstring -> option file) (p : wstring) (v : option file)
  : wstring -> option file :=
  fun q => if path_eqb q p then v else fs q.

Definition set_fs (w : world) (fs : wstring -> option file) : world :=
  mk_world fs (w_temp_path w) (w_temp_writable w) (w_unique w) (w_temp_calls w)
    (w_copy_error w) (w_clock w) (w_profile w) (w_open_ok w) (w_open_calls w) (w_out w).

Definition set_temp_calls (w : world) (n : nat) : world :=
  mk_world (w_fs w) (w_temp_path w) (w_temp_writable w) (w_unique w) n
    (w_copy_error w) (w_clock w) (w_profile w) (w_open_ok w) (w_open_calls w) (w_out w).

Definition set_open_calls (w : world) (n : nat) : world :=
  mk_world (w_fs w) (w_temp_path w) (w_temp_writable w) (w_unique w) (w_temp_calls w)
    (w_copy_error w) (w_clock w) (w_profile w) (w_open_ok w) n (w_out w).

Definition set_out (w : world) (o : list line) : world :=
  mk_world (w_fs w) (w_temp_path w) (w_temp_writable w) (w_unique w) (w_temp_calls w)
    (w_copy_error w) (w_clock w) (w_profile w) (w_open_ok w) (w_open_calls w) o.

(** ** A state monad with crashes *)

Definition M (A : Type) := world -> world * outcome A.

Definition ret {A} (a : A) : M A := fun w => (w, Ret a).
Definition crash {A} : M A := fun w => (w, Crash).
Definition bind {A B} (m : M A) (k : A -> M B) : M B :=
  fun w => match m w with
           | (w', Ret a) => k a w'
           | (w', Crash) => (w', Crash)
           end.

Notation "x <- m ;; k" := (bind m (fun x => k))
  (at level 61, m at next level, right associativity).
Notation "m ;;; k" := (bind m (fun _ => k))
  (at level 61, right associativity).

(** A computation without effect on the world. *)
Definition lift {A} (o : outcome A) : M A := fun w => (w, o).

Definition get : M world := fun w => (w, Ret w).
Definition modify (f : world -> world) : M unit := fun w => (f w, Ret tt).

Definition wprintf (l : line) : M unit :=
  modify (fun w => set_out w (w_out w ++ [l])).

(** ** Windows and filesystem calls *)

Definition GetTempPathW : M (option wstring) := fun w => (w, Ret (w_temp_path w)).

(** [GetTempFileNameW(tempPath, L"dbcopy", 0, name)] builds
    [<tempPath>dbc<uuuu>.TMP] (the first three letters of the prefix and
    four hex digits).  With [uUnique = 0] it starts from a number the
    system time gives, tries successive numbers until the name is free,
    and creates the file (empty).  It fails when [tempPath] is longer than
    [MAX_PATH - 14] characters. *)
Definition MAX_PATH : Z := 260.

Definition hexd (d : Z) : Z := if d <? 10 then 48 + d else 55 + d.

Definition hex4 (u : Z) : wstring :=
  [hexd (u / 4096 mod 16); hexd (u / 256 mod 16); hexd (u / 16 mod 16); hexd (u mod 16)].

Definition temp_name (dir : wstring) (u : Z) : wstring :=
  dir ++ W "dbc" ++ hex4 u ++ W ".TMP".

(** The first free name among [u], [u+1], ..., [u + 2^k - 1] (unique
    numbers taken modulo 2^16), searched in that order; the call uses
    [k = 16], i.e. all 65536 numbers. *)
Fixpoint find_free (fs : wstring -> option file) (dir : wstring) (k : nat) (u : Z)
  : option Z :=
  match k with
  | O =>
      let v := u mod 65536 in
      match fs (temp_name dir v) with
      | None => Some v
      | Some _ => None
      end
  | S k' =>
      match find_free fs dir k' u with
      | Some v => Some v
      | None => find_free fs dir k' (u + 2 ^ Z.of_nat k')
      end
  end.

Definition GetTempFileNameW (tempPath : wstring) : M (option wstring) := fun w =>
  let k := w_temp_calls w in
  let w1 := set_temp_calls w (S k) in
  if negb (w_temp_writable w) || (MAX_PATH - 14 <? Z.of_nat (length tempPath)) then (w1, Ret None)
  else match find_free (w_fs w) tempPath 16 (w_unique w k) with
       | None => (w1, Ret None)
       | Some v =>
           let name := temp_name tempPath v in
           (set_fs w1 (fs_set (w_fs w) name (Some (mk_file EmptyFile (w_clock w) true))),
            Ret (Some name))
       end.

(** Messages of the [filesystem_error] thrown by [copy_file]. *)
Definition what_not_found : string := "copy_file: The system cannot find the file specified."%string.
Definition what_sharing : string :=
  "copy_file: The process cannot access the file because it is being used by another process."%string.

Definition what_same_file : string := "copy_file: The file exists."%string.

(** [std::filesystem::copy_file(from, to, overwrite_existing)]: reads the
    source (it only needs read sharing) and replaces the destination with
    a copy of its bytes and times; copying a file onto itself is an error,
    and so is any error the OS reports while reading or writing
    ([w_copy_error]; the destination is then left as it was).  [Some what]
    is the exception thrown. *)
Definition copy_file (from to : wstring) : M (option string) := fun w =>
  match w_fs w from with
  | None => (w, Ret (Some what_not_found))
  | Some f =>
      if path_eqb from to then (w, Ret (Some what_same_file))
      else if negb (f_share_read f) then (w, Ret (Some what_sharing))
      else match w_copy_error w from with
           | Some what => (w, Ret (Some what))
           | None =>
               (set_fs w (fs_set (w_fs w) to (Some (mk_file (f_data f) (f_mtime f) true))),
                Ret None)
           end
  end.

(** [std::filesystem::remove(p)]. *)
Definition filesystem_remove (p : wstring) : M unit :=
  modify (fun w => set_fs w (fs_set (w_fs w) p None)).

(** ** SQLite calls

    A connection is identified by the path of its file. *)

Definition sqlite3 := wstring.

(** [sqlite3_open16]: opens (creating it when missing) the database file;
    whether the OS lets it is the environment's choice [w_open_ok]. *)
Definition sqlite3_open16 (filename : wstring) : M (option sqlite3) := fun w =>
  let k := w_open_calls w in
  let w1 := set_open_calls w (S k) in
  if w_open_ok w k then
    match w_fs w1 filename with
    | Some _ => (w1, Ret (Some filename))
    | None =>
        (set_fs w1 (fs_set (w_fs w1) filename (Some (mk_file EmptyFile (w_clock w) true))),
         Ret (Some filename))
    end
  else (w1, Ret None).

Definition row := (option string * Z)%type.

(** [SELECT u.url, v.visit_time FROM urls u JOIN visits v ON u.id = v.url
     ORDER BY v.visit_time DESC]: the join, then a sort on the visit time,
    largest first.  SQLite leaves the order of rows with equal times
    unspecified; the model keeps their join order (a stable sort), and no
    property below depends on that choice. *)
Definition join_rows (t : history_tables) : list row :=
  flat_map (fun '(id, url) =>
              map (fun '(_, vt) => (url, vt))
                  (filter (fun '(vurl, _) => vurl =? id) (visits t)))
           (urls t).

Fixpoint insert_desc (r : row) (l : list row) : list row :=
  match l with
  | [] => [r]
  | r' :: l' => if snd r' <=? snd r then r :: l else r' :: insert_desc r l'
  end.

Definition sort_desc (l : list row) : list row := fold_right insert_desc [] l.

Definition query_rows (t : history_tables) : list row := sort_desc (join_rows t).

(** [sqlite3_prepare_v2(db, query, ...)]: the statement, i.e. the rows its
    [sqlite3_step] calls return, or the error [sqlite3_errmsg] reports. *)
Definition sqlite3_prepare_v2 (db : sqlite3) : M (string + list row) := fun w =>
  match w_fs w db with
  | Some f =>
      match f_data f with
      | SqliteDb (Some t) => (w, Ret (inr (query_rows t)))
      | SqliteDb None | EmptyFile => (w, Ret (inl "no such table: urls"%string))
      | OtherFile => (w, Ret (inl "file is not a database"%string))
      end
  | None => (w, Ret (inl "unable to open database file"%string))
  end.

(** ** CopyDatabaseToTemp (lines 70-96)

    Returns the [bool] result together with the final value of the
    [tempDbPath] out-parameter. *)
Definition CopyDatabaseToTemp (dbPath : wstring) : M (bool * wstring) :=
  tp <- GetTempPathW ;;
  match tp with
  | None => ret (false, [])
  | Some tempPath =>
      tf <- GetTempFileNameW tempPath ;;
      match tf with
      | None => ret (false, [])
      | Some tempFileName =>
          let tempDbPath := tempFileName in
          e <- copy_file dbPath tempDbPath ;;
          match e with
          | None => ret (true, tempDbPath)
          | Some what =>
              wprintf (LCopyException (ConvertUtf8ToWide (bytes_of what))) ;;;
              ret (false, tempDbPath)
          end
      end
  end.

(** ** PrintUrlsFromDatabase (lines 99-151) *)

(** The [while (sqlite3_step(stmt) == SQLITE_ROW)] loop (lines 127-144).
    [sqlite3_column_text] yields a null pointer for a [NULL] url; building
    the [std::string] argument of [ConvertUtf8ToWide] from it is undefined
    behaviour (a null dereference in [strlen]).  [FormatUnixTimeToUTC]
    ends the process for a time beyond [gmtime_s]'s upper bound. *)
Fixpoint step_rows (currentTime timeRangeInSeconds : Z) (rows : list row) : M unit :=
  match rows with
  | [] => ret tt
  | (foundUrlUtf8, visitTimeWebKit) :: rest =>
      let visitTimeUnix := ConvertWebKitToUnixTime visitTimeWebKit in
      (if difftime currentTime visitTimeUnix <=? timeRangeInSeconds then
         match foundUrlUtf8 with
         | None => crash
         | Some u =>
             let foundUrl := ConvertUtf8ToWide (bytes_of u) in
             visitTimeStr <- lift (FormatUnixTimeToUTC visitTimeUnix) ;;
             wprintf (LEntry foundUrl visitTimeStr)
         end
       else ret tt) ;;;
      step_rows currentTime timeRangeInSeconds rest
  end.

Definition PrintUrlsFromDatabase (dbPath : wstring) (currentTime timeRangeInSeconds : Z)
  : M unit :=
  r <- CopyDatabaseToTemp dbPath ;;
  let '(copied, tempDbPath) := r in
  if negb copied then wprintf (LCopyFailed dbPath)
  else
    o <- sqlite3_open16 tempDbPath ;;
    match o with
    | None => wprintf (LOpenFailed tempDbPath)
    | Some db =>
        p <- sqlite3_prepare_v2 db ;;
        match p with
        | inl errmsg => wprintf (LPrepareFailed errmsg)   (* then sqlite3_close(db) *)
        | inr stmt =>
            step_rows currentTime timeRangeInSeconds stmt ;;;
            (* sqlite3_finalize(stmt); sqlite3_close(db); *)
            filesystem_remove tempDbPath
        end
    end.

(** ** GetUserProfilePath (lines 45-53) and wmain (lines 154-183) *)

Definition GetUserProfilePath : M wstring := fun w =>
  match w_profile w with
  | Some path => (w, Ret path)
  | None => (w, Ret [])
  end.

Definition chrome_suffix : wstring :=
  W "\AppData\Local\Google\Chrome\User Data\Default\History".
Definition edge_suffix : wstring :=
  W "\AppData\Local\Microsoft\Edge\User Data\Default\History".

Definition wmain : M Z :=
  w <- get ;;
  let currentTime := w_clock w in
  let timeRangeInSeconds := 10 * 60 in
  userProfilePath <- GetUserProfilePath ;;
  match userProfilePath with
  | [] => wprintf (LText (W "Failed to get user profile path." ++ nl)) ;;; ret 1
  | _ =>
      let chromeHistoryPath := userProfilePath ++ chrome_suffix in
      let edgeHistoryPath := userProfilePath ++ edge_suffix in
      wprintf (LText (W "Checking Chrome browsing history:" ++ nl)) ;;;
      PrintUrlsFromDatabase chromeHistoryPath currentTime timeRangeInSeconds ;;;
      wprintf (LText (nl ++ W "Checking Edge browsing history:" ++ nl)) ;;;
      PrintUrlsFromDatabase edgeHistoryPath currentTime timeRangeInSeconds ;;;
      ret 0
  end.

Arguments W : simpl never.
Arguments path_eqb : simpl never.
Arguments temp_name : simpl never.
Arguments find_free : simpl never.

(** ** Vocabulary of the properties

    These definitions do not model code; they name what the statements
    below talk about. *)





(** [f k] holds for the [n] integers from [k] on. *)
Fixpoint all_from (n : nat) (k : Z) (f : Z -> bool) : bool :=
  match n with
  | O => true
  | S n' => if f k then all_from n' (k + 1) f else false
  end.






(** UTF-8 encoding of a Unicode scalar value. *)
Definition utf8_encode (c : Z) : list Z :=
  if c <? 128 then [c]
  else if c <? 2048 then [192 + c / 64; 128 + c mod 64]
  else if c <? 65536 then [224 + c / 4096; 128 + c / 64 mod 64; 128 + c mod 64]
  else [240 + c / 262144; 128 + c / 4096 mod 64; 128 + c / 64 mod 64; 128 + c mod 64].

(** A Unicode scalar value other than NUL. *)
Definition scalar_ok (c : Z) : Prop := 0 < c <= 1114111 /\ ~ (55296 <= c <= 57343).


(** Whether [FormatUnixTimeToUTC] returns (rather than ending the process)
    on the time [t], and the text it returns. *)
Definition format_ok (t : Z) : bool :=
  match FormatUnixTimeToUTC t with Ret _ => true | Crash => false end.

Definition time_text (t : Z) : wstring :=
  match FormatUnixTimeToUTC t with Ret s => s | Crash => [] end.

(** The line printed for a row with a non-null url. *)
Definition entry_of (r : string * Z) : line :=
  LEntry (ConvertUtf8ToWide (bytes_of (fst r)))
         (time_text (ConvertWebKitToUnixTime (snd r))).

(** The loop body can print the row [r] (when it is in the window): its
    url is not [NULL] and its time can be formatted. *)
Definition row_ok (r : row) : bool :=
  match fst r with
  | Some _ => format_ok (ConvertWebKitToUnixTime (snd r))
  | None => false
  end.

Definition with_url (r : string * Z) : row := (Some (fst r), snd r).

(** The condition of line 134 on a row. *)
Definition in_window (currentTime timeRangeInSeconds : Z) (r : row) : bool :=
  difftime currentTime (ConvertWebKitToUnixTime (snd r)) <=? timeRangeInSeconds.

Fixpoint entries (ls : list line) : list line :=
  match ls with
  | [] => []
  | (LEntry _ _ as l) :: ls' => l :: entries ls'
  | _ :: ls' => entries ls'
  end.


(** The environment part of the world, which the program never changes. *)
Definition same_env (w w' : world) : Prop :=
  w_temp_path w' = w_temp_path w /\ w_temp_writable w' = w_temp_writable w /\
  w_unique w' = w_unique w /\ w_copy_error w' = w_copy_error w /\
  w_clock w' = w_clock w /\ w_profile w' = w_profile w /\ w_open_ok w' = w_open_ok w.

(** [GetTempFileNameW] can create files in the directory [d] that
    [GetTempPathW] gives. *)
Definition temp_dir_ok (w : world) (d : wstring) : Prop :=
  w_temp_path w = Some d /\ w_temp_writable w = true /\ Z.of_nat (length d) <= MAX_PATH - 14.

(** The file [GetTempFileNameW] creates. *)
Definition empty_temp (w : world) : file := mk_file EmptyFile (w_clock w) true.

(** Every file present in [w] is still there, unchanged (content, time
    and sharing), in [w']. *)
Definition keeps_files (w w' : world) : Prop :=
  forall q f, w_fs w q = Some f -> w_fs w' q = Some f.

(** [w'] differs from [w] at most at the path [tmp]. *)
Definition changes_at_most (w w' : world) (tmp : wstring) : Prop :=
  forall q, q <> tmp -> w_fs w' q = w_fs w q.

(** The temporary name with unique number [v] is free. *)
Definition free_temp (w : world) (d : wstring) (v : Z) : Prop :=
  0 <= v < 65536 /\ w_fs w (temp_name d v) = None.

(** [copy_file] can copy the store [p]: it exists, can be read, and the
    OS reports no error. *)
Definition copy_ok (w : world) (p : wstring) : Prop :=
  exists f, w_fs w p = Some f /\ f_share_read f = true /\ w_copy_error w p = None.

(** The extraction of the store [p] fails: at the copy, at
    [sqlite3_open16], or at [sqlite3_prepare_v2] (no history database).
    In the first and last case the [sqlite3_open16] call with the current
    index succeeds, so that the next store's open is not the one that
    fails. *)
Definition store_fails (w : world) (p : wstring) : Prop :=
  (~ copy_ok w p /\ w_open_ok w (w_open_calls w) = true) \/
  (copy_ok w p /\ w_open_ok w (w_open_calls w) = false) \/
  (copy_ok w p /\ (forall f t, w_fs w p = Some f -> f_data f <> SqliteDb (Some t)) /\
   w_open_ok w (w_open_calls w) = true).

(** The two headers [wmain] prints. *)
Definition hdr_chrome : line := LText (W "Checking Chrome browsing history:" ++ nl).
Definition hdr_edge : line := LText (nl ++ W "Checking Edge browsing history:" ++ nl).

(** Visit times descending. *)
Definition desc_row (a b : row) : Prop := snd b <= snd a.

(** ** Sample data *)

Definition prof : wstring := W "C:\Users\u".
Definition tmpd : wstring := W "C:\Users\u\AppData\Local\Temp\".
Definition chrome_path : wstring := prof ++ chrome_suffix.
Definition edge_path : wstring := prof ++ edge_suffix.

(** The encoded (WebKit, microseconds) timestamp of a Unix second. *)
Definition enc (t : Z) : Z := (t + 11644473600) * 1000000.

(** 2024-01-01 00:10:00 UTC. *)
Definition now : Z := 1704067800.

Definition fs_with (es : list (wstring * file)) : wstring -> option file := fun p =>
  match find (fun e => path_eqb p (fst e)) es with
  | Some e => Some (snd e)
  | None => None
  end.

(** The system time gives the unique number 7 to every
    [GetTempFileNameW] call, and no copy meets an OS error. *)
Definition sample_world (es : list (wstring * file)) : world :=
  mk_world (fs_with es) (Some tmpd) true (fun _ => 7) O (fun _ => None) now (Some prof)
    (fun _ => true) O [].

(** Every [sqlite3_open16] call fails. *)
Definition open_fail_world (es : list (wstring * file)) : world :=
  mk_world (fs_with es) (Some tmpd) true (fun _ => 7) O (fun _ => None) now (Some prof)
    (fun _ => false) O [].

(** [SHGetFolderPathW] fails. *)
Definition no_profile_world : world :=
  mk_world (fs_with []) (Some tmpd) true (fun _ => 7) O (fun _ => None) now None
    (fun _ => true) O [].

Definition db_file (t : history_tables) : file := mk_file (SqliteDb (Some t)) 5 true.

Definition sample_db : history_tables :=
  mk_tables [(1, Some "https://example.com/"%string); (2, Some "https://a.org/"%string)]
            [(2, enc 1704067200); (1, enc 1704067740)].

(** One row with a [NULL] url (the newest) and nine with a url, all
    within ten minutes of [now]. *)
Definition null_url_db : history_tables :=
  mk_tables ((1, None) :: map (fun k => (k, Some "https://example.com/"%string)) [2;3;4;5;6;7;8;9;10])
            (map (fun k => (k, enc (now - 10 * (k - 1)))) [1;2;3;4;5;6;7;8;9;10]).

(** One visit in the year 5138 (Unix time 10^11), beyond [gmtime_s]'s
    upper bound. *)
Definition far_future_db : history_tables :=
  mk_tables [(1, Some "https://example.com/"%string)] [(1, enc 100000000000)].


(** A world whose only file is a Chrome store with [sample_db]. *)
Definition cdt_world : world := sample_world [(chrome_path, db_file sample_db)].

(** ** Basic facts *)

Ltac bool_facts :=
  repeat match goal with
  | |- context [?a <=? ?b] =>
      first [ replace (a <=? b) with true by (symmetry; apply Z.leb_le; lia)
            | replace (a <=? b) with false by (symmetry; apply Z.leb_gt; lia) ]
  | |- context [?a <? ?b] =>
      first [ replace (a <? b) with true by (symmetry; apply Z.ltb_lt; lia)
            | replace (a <? b) with false by (symmetry; apply Z.ltb_ge; lia) ]
  | |- _ => progress cbn [orb andb negb]
  end.


Lemma set_out_same (w : world) : set_out w (w_out w) = w.
Proof. destruct w; reflexivity. Qed.

Lemma path_eqb_spec (p q : wstring) : path_eqb p q = true <-> p = q.
Proof. unfold path_eqb; destruct (list_eq_dec Z.eq_dec p q); split; congruence. Qed.

Lemma path_eqb_refl (p : wstring) : path_eqb p p = true.
Proof. apply path_eqb_spec; reflexivity. Qed.

Lemma fs_set_same fs p v : fs_set fs p v p = v.
Proof. unfold fs_set; now rewrite path_eqb_refl. Qed.

Lemma fs_set_other fs p q v : q <> p -> fs_set fs p v q = fs q.
Proof.
  intros Hne; unfold fs_set.
  destruct (path_eqb q p) eqn:E; [apply path_eqb_spec in E; congruence | reflexivity].
Qed.

(** ** ConvertWebKitToUnixTime *)

Lemma quot_1e6_bounds (ts : Z) :
  in_int64 ts -> -9223372036854 <= Z.quot ts 1000000 <= 9223372036854.
Proof.
  unfold in_int64, int64_min, int64_max; intros H.
  pose proof (Z.quot_rem' ts 1000000) as Hq.
  pose proof (Z.rem_bound_abs ts 1000000 ltac:(lia)) as Hr.
  pose proof (Z.rem_nonneg ts 1000000) as Hn.
  pose proof (Z.rem_nonpos ts 1000000) as Hp.
  change (2 ^ 63) with 9223372036854775808 in *.
  destruct (Z.le_gt_cases 0 ts) as [Hs | Hs].
  - specialize (Hn ltac:(lia) Hs). lia.
  - specialize (Hp ltac:(lia) ltac:(lia)). lia.
Qed.

Lemma ConvertWebKitToUnixTime_eq (ts : Z) :
  in_int64 ts -> ConvertWebKitToUnixTime ts = Z.quot ts 1000000 - 11644473600.
Proof.
  intros H; pose proof (quot_1e6_bounds ts H) as B.
  unfold ConvertWebKitToUnixTime, wrap64.
  change (2 ^ 63) with 9223372036854775808 in *.
  change (2 ^ 64) with 18446744073709551616.
  rewrite Z.mod_small by lia. lia.
Qed.

(** ** The row loop *)

Lemma set_out_set_out (w : world) (a b : list line) : set_out (set_out w a) b = set_out w b.
Proof. destruct w; reflexivity. Qed.

Lemma step_rows_cons cur range r rest w :
  step_rows cur range (r :: rest) w =
  if in_window cur range r then
    match fst r with
    | None => (w, Crash)
    | Some u =>
        if format_ok (ConvertWebKitToUnixTime (snd r))
        then step_rows cur range rest (set_out w (w_out w ++ [entry_of (u, snd r)]))
        else (w, Crash)
    end
  else step_rows cur range rest w.
Proof.
  destruct r as [[u|] ts]; unfold in_window; simpl;
    destruct (difftime cur (ConvertWebKitToUnixTime ts) <=? range); try reflexivity.
  unfold bind, lift, wprintf, modify, entry_of, format_ok, time_text; simpl.
  destruct (FormatUnixTimeToUTC (ConvertWebKitToUnixTime ts)); reflexivity.
Qed.

(** What the loop does on any result set: it prints the entries of the
    in-window rows, in the order of the rows, and stops (undefined
    behaviour, or the end of the process in [gmtime_s]) at the first
    in-window row it cannot print. *)
Lemma step_rows_spec cur range rows w :
  exists rs tail o,
    step_rows cur range rows w = (set_out w (w_out w ++ map entry_of rs), o) /\
    map with_url rs ++ tail = filter (in_window cur range) rows /\
    Forall (fun r => row_ok (with_url r) = true) rs /\
    ((tail = [] /\ o = Ret tt) \/
     (o = Crash /\ exists r rest, tail = r :: rest /\ row_ok r = false)).
Proof.
  revert w; induction rows as [|r rest IH]; intros w.
  - exists [], [], (Ret tt); simpl; rewrite app_nil_r, set_out_same.
    split; [reflexivity|split; [reflexivity|split; [constructor|auto]]].
  - rewrite step_rows_cons; simpl filter.
    destruct (in_window cur range r) eqn:Hin; [|apply IH].
    destruct r as [[u|] ts]; simpl fst; simpl snd.
    + destruct (format_ok (ConvertWebKitToUnixTime ts)) eqn:Hf.
      * destruct (IH (set_out w (w_out w ++ [entry_of (u, ts)]))) as (rs & tail & o & Hrun & Hfl & Hok & Ho).
        exists ((u, ts) :: rs), tail, o; split; [|split; [|split]].
        -- rewrite Hrun, set_out_set_out; simpl; rewrite <- app_assoc; reflexivity.
        -- simpl; rewrite Hfl; reflexivity.
        -- constructor; [exact Hf|exact Hok].
        -- exact Ho.
      * exists [], ((Some u, ts) :: filter (in_window cur range) rest), Crash;
          split; [|split; [|split]].
        -- simpl; rewrite app_nil_r, set_out_same; reflexivity.
        -- reflexivity.
        -- constructor.
        -- right; split; [reflexivity|]; eexists _, _; split; [reflexivity|exact Hf].
    + exists [], ((None, ts) :: filter (in_window cur range) rest), Crash; split; [|split; [|split]].
      * simpl; rewrite app_nil_r, set_out_same; reflexivity.
      * reflexivity.
      * constructor.
      * right; split; [reflexivity|]; eexists _, _; split; reflexivity.
Qed.





(** ** The calendar of gmtime_s *)

Lemma all_from_spec (n : nat) (k : Z) (f : Z -> bool) :
  all_from n k f = true -> forall j, k <= j < k + Z.of_nat n -> f j = true.
Proof.
  revert k; induction n as [|n IH]; intros k H j Hj; simpl in *.
  - lia.
  - destruct (f k) eqn:Fk; [|discriminate].
    destruct (Z.eq_dec j k) as [->|Hne]; [exact Fk|].
    apply (IH (k + 1) H); lia.
Qed.








(** ** Temporary names *)

Lemma find_free_0 fs dir u :
  find_free fs dir 0 u =
  match fs (temp_name dir (u mod 65536)) with None => Some (u mod 65536) | Some _ => None end.
Proof. reflexivity. Qed.

Lemma find_free_S fs dir k u :
  find_free fs dir (S k) u =
  match find_free fs dir k u with
  | Some v => Some v
  | None => find_free fs dir k (u + 2 ^ Z.of_nat k)
  end.
Proof. reflexivity. Qed.

Lemma find_free_free fs dir k u v :
  find_free fs dir k u = Some v -> fs (temp_name dir v) = None.
Proof.
  revert u; induction k as [|k IH]; intros u H; [rewrite find_free_0 in H | rewrite find_free_S in H].
  - destruct (fs (temp_name dir (u mod 65536))) eqn:E; [discriminate|].
    injection H as <-; exact E.
  - destruct (find_free fs dir k u) eqn:E1; [injection H as <-; eauto | eauto].
Qed.

Lemma find_free_range fs dir k u v :
  find_free fs dir k u = Some v -> 0 <= v < 65536.
Proof.
  revert u; induction k as [|k IH]; intros u H; [rewrite find_free_0 in H | rewrite find_free_S in H].
  - destruct (fs (temp_name dir (u mod 65536))); [discriminate|].
    injection H as <-; apply Z.mod_pos_bound; lia.
  - destruct (find_free fs dir k u) eqn:E1; [injection H as <-; eauto | eauto].
Qed.

Lemma find_free_some_aux fs dir k u :
  (exists j, 0 <= j < 2 ^ Z.of_nat k /\ fs (temp_name dir ((u + j) mod 65536)) = None) ->
  exists v, find_free fs dir k u = Some v.
Proof.
  revert u; induction k as [|k IH]; intros u (j & Hj & Hfree); [rewrite find_free_0 | rewrite find_free_S].
  - simpl in Hj; assert (j = 0) as -> by lia; rewrite Z.add_0_r in Hfree.
    rewrite Hfree; eauto.
  - rewrite Nat2Z.inj_succ, Z.pow_succ_r in Hj by lia.
    destruct (find_free fs dir k u) eqn:E1; [eauto|].
    destruct (Z_lt_le_dec j (2 ^ Z.of_nat k)) as [Hlt|Hge].
    + destruct (IH u) as [v Hv]; [exists j; split; [lia|exact Hfree]|congruence].
    + apply IH; exists (j - 2 ^ Z.of_nat k); split; [lia|].
      replace (u + 2 ^ Z.of_nat k + (j - 2 ^ Z.of_nat k)) with (u + j) by lia; exact Hfree.
Qed.

(** [GetTempFileNameW] finds a name as long as one of the 65536 is free. *)
Lemma find_free_some fs dir u :
  (exists v, 0 <= v < 65536 /\ fs (temp_name dir v) = None) ->
  exists v, find_free fs dir 16 u = Some v.
Proof.
  intros (v & Hv & Hfree); apply find_free_some_aux.
  exists ((v - u) mod 65536); split.
  - change (2 ^ Z.of_nat 16) with 65536; apply Z.mod_pos_bound; lia.
  - rewrite Z.add_mod_idemp_r by lia.
    replace (u + (v - u)) with v by lia.
    rewrite Z.mod_small by lia; exact Hfree.
Qed.

Lemma hexd_inj a b : 0 <= a < 16 -> 0 <= b < 16 -> hexd a = hexd b -> a = b.
Proof.
  unfold hexd; intros Ha Hb.
  destruct (a <? 10) eqn:Ea, (b <? 10) eqn:Eb;
    rewrite ?Z.ltb_lt, ?Z.ltb_ge in Ea, Eb; lia.
Qed.

Lemma hex_decomp_all :
  all_from (Z.to_nat 65536) 0
    (fun u => u =? 4096 * (u / 4096 mod 16) + 256 * (u / 256 mod 16)
                   + 16 * (u / 16 mod 16) + u mod 16) = true.
Proof. vm_compute; reflexivity. Qed.

Lemma hex4_inj u1 u2 : 0 <= u1 < 65536 -> 0 <= u2 < 65536 -> hex4 u1 = hex4 u2 -> u1 = u2.
Proof.
  intros H1 H2 H; unfold hex4 in H; injection H as E3 E2 E1 E0.
  apply hexd_inj in E3, E2, E1, E0; try (apply Z.mod_pos_bound; lia).
  pose proof (all_from_spec _ _ _ hex_decomp_all u1 ltac:(rewrite Z2Nat.id; lia)) as D1.
  pose proof (all_from_spec _ _ _ hex_decomp_all u2 ltac:(rewrite Z2Nat.id; lia)) as D2.
  apply Z.eqb_eq in D1, D2; lia.
Qed.

Lemma temp_name_inj dir u1 u2 :
  0 <= u1 < 65536 -> 0 <= u2 < 65536 -> temp_name dir u1 = temp_name dir u2 -> u1 = u2.
Proof.
  unfold temp_name; intros H1 H2 H.
  apply app_inv_head in H; simpl in H; injection H; intros.
  apply hex4_inj; auto; unfold hex4; congruence.
Qed.

(** ** CopyDatabaseToTemp and PrintUrlsFromDatabase *)

Lemma GetTempFileNameW_spec d w w1 o :
  GetTempFileNameW d w = (w1, o) ->
  (o = Ret None /\ w1 = set_temp_calls w (S (w_temp_calls w))) \/
  (exists v, o = Ret (Some (temp_name d v)) /\ w_fs w (temp_name d v) = None /\
     0 <= v < 65536 /\ w_temp_writable w = true /\ Z.of_nat (length d) <= MAX_PATH - 14 /\
     w1 = set_fs (set_temp_calls w (S (w_temp_calls w)))
            (fs_set (w_fs w) (temp_name d v) (Some (empty_temp w)))).
Proof.
  unfold GetTempFileNameW.
  destruct (negb (w_temp_writable w) || (MAX_PATH - 14 <? Z.of_nat (length d))) eqn:Ec;
    [intros H; injection H as <- <-; auto|].
  apply orb_false_iff in Ec as [Ew El]; apply negb_false_iff in Ew; apply Z.ltb_ge in El.
  destruct (find_free (w_fs w) d 16 (w_unique w (w_temp_calls w))) as [v|] eqn:Ef;
    intros H; injection H as <- <-; [right|left; auto].
  exists v; split; [reflexivity|]; split; [exact (find_free_free _ _ _ _ _ Ef)|].
  split; [exact (find_free_range _ _ _ _ _ Ef)|].
  split; [exact Ew|]; split; [exact El|reflexivity].
Qed.

Lemma CopyDatabaseToTemp_spec p w w1 o :
  CopyDatabaseToTemp p w = (w1, o) ->
  same_env w w1 /\ w_open_calls w1 = w_open_calls w /\
  match o with
  | Ret (true, tmp) =>
      w_fs w tmp = None /\ w_out w1 = w_out w /\
      exists f, w_fs w p = Some f /\ f_share_read f = true /\ w_copy_error w p = None /\
        forall q, w_fs w1 q = fs_set (w_fs w) tmp (Some (mk_file (f_data f) (f_mtime f) true)) q
  | Ret (false, tmp) =>
      (w_fs w1 = w_fs w /\ w_out w1 = w_out w) \/
      (w_fs w tmp = None /\ w_fs w1 = fs_set (w_fs w) tmp (Some (empty_temp w)) /\
       exists e, w_out w1 = w_out w ++ [LCopyException e])
  | Crash => False
  end.
Proof.
  unfold CopyDatabaseToTemp, bind, GetTempPathW, ret.
  destruct (w_temp_path w) as [d|] eqn:Ed;
    [|intros H; injection H as <- <-; repeat split; auto].
  destruct (GetTempFileNameW d w) as [w2 o2] eqn:Eg.
  apply GetTempFileNameW_spec in Eg.
  destruct Eg as [[-> ->] | (v & -> & Hfree & Hv & _ & _ & ->)];
    [intros H; injection H as <- <-; repeat split; auto|].
  unfold copy_file; simpl.
  match goal with |- context [path_eqb ?a ?b] => destruct (path_eqb a b) eqn:Epq end.
  - apply path_eqb_spec in Epq; subst p.
    rewrite fs_set_same; simpl.
    intros H; injection H as <- <-; repeat split; auto.
    right; simpl; repeat split; eauto.
  - assert (Hne : p <> temp_name d v) by (intro E; apply path_eqb_spec in E; congruence).
    rewrite fs_set_other by exact Hne.
    destruct (w_fs w p) as [f|] eqn:Ep; simpl.
    + destruct (f_share_read f) eqn:Er; simpl.
      * destruct (w_copy_error w p) as [e|] eqn:Ee; simpl;
          intros H; injection H as <- <-; repeat split; auto.
        -- right; simpl; repeat split; eauto.
        -- exists f; repeat split; auto.
           intros q; simpl; unfold fs_set; destruct (path_eqb q (temp_name d v)); reflexivity.
      * intros H; injection H as <- <-; repeat split; auto.
        right; simpl; repeat split; eauto.
    + intros H; injection H as <- <-; repeat split; auto.
      right; simpl; repeat split; eauto.
Qed.

Lemma sqlite3_open16_exists tmp w f :
  w_fs w tmp = Some f ->
  sqlite3_open16 tmp w =
  (set_open_calls w (S (w_open_calls w)),
   if w_open_ok w (w_open_calls w) then Ret (Some tmp) else Ret None).
Proof.
  intros E; unfold sqlite3_open16; simpl.
  destruct (w_open_ok w (w_open_calls w)); [rewrite E|]; reflexivity.
Qed.

Lemma PU_shape p cur range w w' o :
  PrintUrlsFromDatabase p cur range w = (w', o) ->
  same_env w w' /\ keeps_files w w' /\ (exists tmp, changes_at_most w w' tmp) /\
  ((o = Ret tt /\ exists D, w_out w' = w_out w ++ D /\ D <> [] /\ entries D = []) \/
   (exists f t rs tail,
      w_fs w p = Some f /\ f_share_read f = true /\ w_copy_error w p = None /\
      f_data f = SqliteDb (Some t) /\
      w_open_ok w (w_open_calls w) = true /\ w_out w' = w_out w ++ map entry_of rs /\
      map with_url rs ++ tail = filter (in_window cur range) (query_rows t) /\
      Forall (fun r => row_ok (with_url r) = true) rs /\
      ((tail = [] /\ o = Ret tt /\ forall q, w_fs w' q = w_fs w q) \/
       (o = Crash /\ exists r rest, tail = r :: rest /\ row_ok r = false)))).
Proof.
  unfold PrintUrlsFromDatabase, bind at 1.
  destruct (CopyDatabaseToTemp p w) as [w1 o1] eqn:Ec.
  apply CopyDatabaseToTemp_spec in Ec.
  destruct Ec as (Env1 & Calls1 & Ec).
  destruct o1 as [[[|] tmp]|]; [|simpl|contradiction].
  - destruct Env1 as (E1 & E2 & E3 & E4 & E5 & E6 & E7).
    destruct Ec as (Hfree & Eout & f & Hp & Hsh & Hce & Efs).
    assert (Htmp : w_fs w1 tmp = Some (mk_file (f_data f) (f_mtime f) true))
      by (rewrite Efs; apply fs_set_same).
    assert (Hkeep : keeps_files w w1).
    { intros q g Hq; rewrite Efs, fs_set_other; [exact Hq|congruence]. }
    assert (Hch : changes_at_most w w1 tmp).
    { intros q Hq; rewrite Efs, fs_set_other; auto. }
    simpl; unfold bind at 1; rewrite (sqlite3_open16_exists _ _ _ Htmp).
    destruct (w_open_ok w1 (w_open_calls w1)) eqn:Eok;
      rewrite E7, Calls1 in Eok.
    + unfold bind at 1, sqlite3_prepare_v2; simpl; rewrite Htmp; simpl.
      destruct (f_data f) as [| |[t|]] eqn:Edata.
      3: { destruct (step_rows_spec cur range (query_rows t)
                       (set_open_calls w1 (S (w_open_calls w1)))) as (rs & tail & o2 & Hrun & Hf & Hrs & Ho).
           unfold bind; rewrite Hrun.
           destruct Ho as [[-> ->] | (-> & r & rest & -> & Hr)].
           - unfold filesystem_remove, modify; intros H; injection H as <- <-.
             split; [repeat split; assumption|].
             split; [intros q g Hq; simpl; rewrite fs_set_other; [apply Hkeep; exact Hq|congruence]|].
             split; [exists tmp; intros q Hq; simpl; rewrite fs_set_other; auto|].
             right; exists f, t, rs, []; repeat split; auto.
             + simpl; rewrite Eout; reflexivity.
             + left; repeat split; intros q; simpl.
               destruct (list_eq_dec Z.eq_dec q tmp) as [->|Hq];
                 [rewrite fs_set_same; congruence|rewrite fs_set_other; auto].
           - intros H; injection H as <- <-.
             split; [repeat split; assumption|].
             split; [exact Hkeep|]; split; [exists tmp; exact Hch|].
             right; exists f, t, rs, (r :: rest); repeat split; auto.
             + simpl; rewrite Eout; reflexivity.
             + right; eauto. }
      all: unfold wprintf, modify; intros H; injection H as <- <-;
        split; [repeat split; assumption|];
        split; [exact Hkeep|]; split; [exists tmp; exact Hch|];
        left; split; [reflexivity|]; simpl; rewrite Eout;
        eexists; split; [reflexivity|split; [discriminate|reflexivity]].
    + unfold wprintf, modify; simpl; intros H; injection H as <- <-.
      split; [repeat split; assumption|].
      split; [exact Hkeep|]; split; [exists tmp; exact Hch|].
      left; split; [reflexivity|]; simpl; rewrite Eout.
      eexists; split; [reflexivity|split; [discriminate|reflexivity]].
  - unfold wprintf, modify; intros H; injection H as <- <-.
    destruct Env1 as (E1 & E2 & E3 & E4 & E5 & E6 & E7).
    split; [repeat split; assumption|].
    destruct Ec as [[Efs Eout] | (Hfree & Efs & e & Eout)].
    + split; [intros q f Hq; simpl; rewrite Efs; exact Hq|].
      split; [exists []; intros q _; simpl; rewrite Efs; reflexivity|].
      left; split; [reflexivity|]; simpl; rewrite Eout.
      exists [LCopyFailed p]; split; [reflexivity|split; [discriminate|reflexivity]].
    + split.
      { intros q f Hq; simpl; rewrite Efs, fs_set_other; [exact Hq|congruence]. }
      split; [exists tmp; intros q Hq; simpl; rewrite Efs, fs_set_other; auto|].
      left; split; [reflexivity|]; simpl; rewrite Eout.
      exists [LCopyException e; LCopyFailed p]; split;
        [rewrite <- app_assoc; reflexivity|split; [discriminate|reflexivity]].
Qed.

Lemma CDT_ok p w f d v :
  w_fs w p = Some f -> f_share_read f = true -> w_copy_error w p = None ->
  temp_dir_ok w d -> free_temp w d v ->
  exists w1 tmp, CopyDatabaseToTemp p w = (w1, Ret (true, tmp)).
Proof.
  intros Hp Hsh Hce (Ed & Ewr & Hl) [Hv Hfree].
  destruct (find_free_some (w_fs w) d (w_unique w (w_temp_calls w))) as [v' Ev']; [eauto|].
  pose proof (find_free_free _ _ _ _ _ Ev') as Hfree'.
  unfold CopyDatabaseToTemp, bind, GetTempPathW, GetTempFileNameW; rewrite Ed, Ewr.
  replace (MAX_PATH - 14 <? Z.of_nat (length d)) with false by (symmetry; apply Z.ltb_ge; exact Hl).
  simpl; rewrite Ev'.
  unfold copy_file; simpl.
  assert (Hne : p <> temp_name d v') by congruence.
  rewrite fs_set_other, Hp by exact Hne.
  destruct (path_eqb p (temp_name d v')) eqn:E; [apply path_eqb_spec in E; contradiction|].
  rewrite Hsh; simpl; rewrite Hce; unfold ret; eauto.
Qed.

Lemma step_rows_calls cur range rows w :
  w_open_calls (fst (step_rows cur range rows w)) = w_open_calls w.
Proof.
  destruct (step_rows_spec cur range rows w) as (rs & tail & o & -> & _); destruct w; reflexivity.
Qed.

Lemma PU_calls p cur range w w' o :
  PrintUrlsFromDatabase p cur range w = (w', o) ->
  (w_open_calls w' = w_open_calls w /\ exists w1 tmp, CopyDatabaseToTemp p w = (w1, Ret (false, tmp))) \/
  (w_open_calls w' = S (w_open_calls w) /\ exists w1 tmp, CopyDatabaseToTemp p w = (w1, Ret (true, tmp))).
Proof.
  unfold PrintUrlsFromDatabase, bind at 1.
  destruct (CopyDatabaseToTemp p w) as [w1 o1] eqn:Ec.
  pose proof (CopyDatabaseToTemp_spec _ _ _ _ Ec) as (_ & Calls1 & Es).
  destruct o1 as [[[|] tmp]|]; [|simpl|contradiction].
  - intros H; right; split; [|eauto]; revert H.
    destruct Es as (_ & _ & f & _ & _ & _ & Efs).
    assert (Htmp : w_fs w1 tmp = Some (mk_file (f_data f) (f_mtime f) true))
      by (rewrite Efs; apply fs_set_same).
    simpl; unfold bind at 1; rewrite (sqlite3_open16_exists _ _ _ Htmp).
    destruct (w_open_ok w1 (w_open_calls w1)).
    + unfold bind at 1, sqlite3_prepare_v2; simpl; rewrite Htmp; simpl.
      destruct (f_data f) as [| |[t|]].
      3: { unfold bind.
           pose proof (step_rows_calls cur range (query_rows t)
                         (set_open_calls w1 (S (w_open_calls w1)))) as Hc.
           destruct (step_rows cur range (query_rows t) (set_open_calls w1 (S (w_open_calls w1))))
             as [w2 [[]|]]; simpl in Hc;
             intros H; injection H as <- <-; simpl; [rewrite Hc|]; simpl; congruence. }
      all: intros H; injection H as <- <-; simpl; congruence.
    + intros H; injection H as <- <-; simpl; congruence.
  - intros H; left; split; [|eauto]; revert H. intros H; injection H as <- <-; simpl; congruence.
Qed.

Lemma PU_fail p cur range w w' o d v :
  temp_dir_ok w d -> free_temp w d v ->
  store_fails w p ->
  (forall k, (w_open_calls w < k)%nat -> w_open_ok w k = true) ->
  PrintUrlsFromDatabase p cur range w = (w', o) ->
  o = Ret tt /\ same_env w w' /\ keeps_files w w' /\ (exists tmp, changes_at_most w w' tmp) /\
  w_open_ok w' (w_open_calls w') = true /\
  exists D, w_out w' = w_out w ++ D /\ D <> [] /\ entries D = [].
Proof.
  intros Hd Hv Hfail Hopen H.
  pose proof (PU_calls _ _ _ _ _ _ H) as Hc.
  apply PU_shape in H; destruct H as (Env & Keep & Ch & Res).
  assert (Eok : w_open_ok w' = w_open_ok w) by apply Env.
  destruct Res as [(-> & D) | (f & t & rs & tail & Hp & Hsh & Hce & Hdata & Hok & _)].
  - split; [reflexivity|]; split; [exact Env|]; split; [exact Keep|]; split; [exact Ch|].
    split; [|exact D].
    rewrite Eok.
    destruct Hc as [(-> & w1 & tmp & Ec) | (-> & _)]; [|apply Hopen; lia].
    destruct Hfail as [(_ & Hok) | [((f & Hp & Hsh & Hce) & _) | ((f & Hp & Hsh & Hce) & _ & _)]];
      [exact Hok| |];
      destruct (CDT_ok _ _ _ _ _ Hp Hsh Hce Hd Hv) as (w2 & tmp2 & E2); congruence.
  - exfalso.
    destruct Hfail as [(Hn & _) | [(_ & Hno) | (_ & Hnd & _)]].
    + apply Hn; exists f; auto.
    + congruence.
    + exact (Hnd f t Hp Hdata).
Qed.

Lemma PU_ok p cur range w f t d v :
  w_fs w p = Some f -> f_share_read f = true -> w_copy_error w p = None ->
  f_data f = SqliteDb (Some t) ->
  w_open_ok w (w_open_calls w) = true ->
  temp_dir_ok w d -> free_temp w d v ->
  (forall r, In r (query_rows t) -> in_window cur range r = true -> row_ok r = true) ->
  exists w' rs, PrintUrlsFromDatabase p cur range w = (w', Ret tt) /\
    same_env w w' /\ w_open_calls w' = S (w_open_calls w) /\
    w_out w' = w_out w ++ map entry_of rs /\
    map with_url rs = filter (in_window cur range) (query_rows t) /\
    (forall q, w_fs w' q = w_fs w q).
Proof.
  intros Hp Hsh Hce Hdata Hok Hd Hv Hrows.
  destruct (CDT_ok _ _ _ _ _ Hp Hsh Hce Hd Hv) as (w1 & tmp & Ec).
  pose proof (CopyDatabaseToTemp_spec _ _ _ _ Ec)
    as (Env1 & Calls1 & Hfree & Eout & g & Hg & _ & _ & Efs).
  rewrite Hp in Hg; injection Hg as <-.
  destruct Env1 as (E1 & E2 & E3 & E4 & E5 & E6 & E7).
  assert (Htmp : w_fs w1 tmp = Some (mk_file (f_data f) (f_mtime f) true))
    by (rewrite Efs; apply fs_set_same).
  unfold PrintUrlsFromDatabase, bind at 1; rewrite Ec; simpl.
  unfold bind at 1; rewrite (sqlite3_open16_exists _ _ _ Htmp), E7, Calls1, Hok.
  unfold bind at 1, sqlite3_prepare_v2; simpl; rewrite Htmp; simpl; rewrite Hdata.
  destruct (step_rows_spec cur range (query_rows t)
              (set_open_calls w1 (S (w_open_calls w)))) as (rs & tail & o2 & Hrun & Hf & _ & Ho).
  unfold bind; rewrite Hrun.
  destruct Ho as [[-> ->] | (-> & r & rest & -> & Hr)].
  - eexists; exists rs; split; [reflexivity|].
    split; [repeat split; assumption|].
    split; [simpl; congruence|].
    split; [simpl; rewrite Eout; reflexivity|].
    split; [rewrite app_nil_r in Hf; exact Hf|].
    intros q; simpl.
    destruct (list_eq_dec Z.eq_dec q tmp) as [->|Hq];
      [rewrite fs_set_same; congruence|rewrite fs_set_other, Efs, fs_set_other; auto].
  - exfalso.
    assert (Hin : In r (filter (in_window cur range) (query_rows t)))
      by (rewrite <- Hf; apply in_or_app; right; left; reflexivity).
    apply filter_In in Hin; destruct Hin as [Hin Hw].
    rewrite (Hrows r Hin Hw) in Hr; discriminate.
Qed.

Lemma wmain_eq w pr :
  w_profile w = Some pr -> pr <> [] ->
  wmain w =
  match PrintUrlsFromDatabase (pr ++ chrome_suffix) (w_clock w) 600
          (set_out w (w_out w ++ [hdr_chrome])) with
  | (w2, Ret _) =>
      match PrintUrlsFromDatabase (pr ++ edge_suffix) (w_clock w) 600
              (set_out w2 (w_out w2 ++ [hdr_edge])) with
      | (w3, Ret _) => (w3, Ret 0)
      | (w3, Crash) => (w3, Crash)
      end
  | (w2, Crash) => (w2, Crash)
  end.
Proof.
  intros Hp Hne; unfold wmain, bind, get, GetUserProfilePath, wprintf, modify, ret.
  unfold get; cbv beta iota zeta; rewrite Hp; destruct pr as [|c cs]; [contradiction|].
  reflexivity.
Qed.

Lemma store_fails_set_out w o p : store_fails (set_out w o) p <-> store_fails w p.
Proof. destruct w; reflexivity. Qed.

Lemma free_temp_after w w' d v1 v2 tmp :
  free_temp w d v1 -> free_temp w d v2 -> v1 <> v2 -> changes_at_most w w' tmp ->
  exists v, free_temp w' d v.
Proof.
  intros [B1 F1] [B2 F2] Hne Ch.
  destruct (list_eq_dec Z.eq_dec (temp_name d v1) tmp) as [E|E].
  - exists v2; split; [exact B2|]; rewrite Ch; [exact F2|].
    intros E2; apply Hne, (temp_name_inj d); auto; congruence.
  - exists v1; split; [exact B1|]; rewrite Ch; auto.
Qed.

(** ** Order of the rows *)

Lemma insert_desc_forall (P : row -> Prop) r l :
  P r -> Forall P l -> Forall P (insert_desc r l).
Proof.
  intros Hr Hl; induction Hl as [|r' l' Hr' Hl' IH]; simpl; [auto|].
  destruct (snd r' <=? snd r); constructor; auto.
Qed.

Lemma insert_desc_sorted r l :
  StronglySorted desc_row l -> StronglySorted desc_row (insert_desc r l).
Proof.
  induction l as [|r' l' IH]; intros H; simpl.
  - repeat constructor.
  - apply StronglySorted_inv in H; destruct H as [H1 H2].
    destruct (snd r' <=? snd r) eqn:E; [apply Z.leb_le in E|apply Z.leb_gt in E].
    + constructor; [constructor; auto|].
      constructor; [unfold desc_row; lia|].
      eapply Forall_impl; [|exact H2]; unfold desc_row; intros a Ha; lia.
    + constructor; [auto|].
      apply insert_desc_forall; [unfold desc_row; lia|exact H2].
Qed.

Lemma sort_desc_sorted l : StronglySorted desc_row (sort_desc l).
Proof.
  induction l as [|r l IH]; simpl; [constructor|].
  apply insert_desc_sorted, IH.
Qed.

Lemma insert_desc_perm r l : Permutation (insert_desc r l) (r :: l).
Proof.
  induction l as [|r' l IH]; simpl; [reflexivity|].
  destruct (snd r' <=? snd r); [reflexivity|].
  rewrite IH; apply perm_swap.
Qed.

Lemma query_rows_perm t : Permutation (query_rows t) (join_rows t).
Proof.
  unfold query_rows, sort_desc; induction (join_rows t) as [|r l IH]; simpl; [reflexivity|].
  rewrite insert_desc_perm, IH; reflexivity.
Qed.

Lemma Permutation_filter_bool {A} (f : A -> bool) l1 l2 :
  Permutation l1 l2 -> Permutation (filter f l1) (filter f l2).
Proof.
  induction 1 as [|a l1 l2 H IH|a b l|l1 l2 l3 H1 IH1 H2 IH2]; simpl.
  - constructor.
  - destruct (f a); [constructor|]; exact IH.
  - destruct (f a), (f b); try constructor; reflexivity.
  - eapply perm_trans; eauto.
Qed.

Lemma StronglySorted_filter {A} (R : A -> A -> Prop) (f : A -> bool) l :
  StronglySorted R l -> StronglySorted R (filter f l).
Proof.
  induction l as [|a l IH]; intros H; simpl; [constructor|].
  apply StronglySorted_inv in H; destruct H as [H1 H2].
  destruct (f a); [|auto].
  constructor; [auto|].
  apply Forall_forall; intros x Hx; apply filter_In in Hx.
  eapply Forall_forall in H2; [exact H2|apply Hx].
Qed.

Lemma StronglySorted_app_l {A} (R : A -> A -> Prop) l1 l2 :
  StronglySorted R (l1 ++ l2) -> StronglySorted R l1.
Proof.
  induction l1 as [|a l1 IH]; intros H; simpl in *; [constructor|].
  apply StronglySorted_inv in H; destruct H as [H1 H2].
  constructor; [auto|].
  apply Forall_forall; intros x Hx.
  eapply Forall_forall in H2; [exact H2|apply in_or_app; left; exact Hx].
Qed.

Lemma StronglySorted_map {A B} (R : B -> B -> Prop) (f : A -> B) l :
  StronglySorted R (map f l) -> StronglySorted (fun a b => R (f a) (f b)) l.
Proof.
  induction l as [|a l IH]; intros H; simpl in *; [constructor|].
  apply StronglySorted_inv in H; destruct H as [H1 H2].
  constructor; [auto|].
  apply Forall_forall; intros x Hx.
  eapply Forall_forall in H2; [exact H2|apply in_map; exact Hx].
Qed.

(** The printed prefix of the in-window rows is ordered like the query. *)
Lemma printed_sorted cur range t (rs : list (string * Z)) tail :
  map with_url rs ++ tail = filter (in_window cur range) (query_rows t) ->
  StronglySorted (fun a b : string * Z => snd b <= snd a) rs.
Proof.
  intros H.
  pose proof (StronglySorted_filter desc_row (in_window cur range) _ (sort_desc_sorted (join_rows t))) as S.
  unfold query_rows in H; rewrite <- H in S.
  apply StronglySorted_app_l in S.
  exact (StronglySorted_map desc_row with_url rs S).
Qed.

Lemma entries_map_entry_of (rs : list (string * Z)) : entries (map entry_of rs) = map entry_of rs.
Proof. induction rs as [|r rs IH]; simpl; [reflexivity|now rewrite IH]. Qed.

Lemma entries_app l1 l2 : entries (l1 ++ l2) = entries l1 ++ entries l2.
Proof.
  induction l1 as [|l l1 IH]; simpl; [reflexivity|].
  destruct l; simpl; rewrite ?IH; reflexivity.
Qed.

(** ** FormatUnixTimeToUTC *)



(** ** Frame lemmas *)

Lemma keeps_files_trans w1 w2 w3 : keeps_files w1 w2 -> keeps_files w2 w3 -> keeps_files w1 w3.
Proof. unfold keeps_files; eauto. Qed.

Lemma keeps_files_set_out w o : keeps_files w (set_out w o).
Proof. intros q f H; exact H. Qed.

Lemma PU_keeps p cur range w : keeps_files w (fst (PrintUrlsFromDatabase p cur range w)).
Proof.
  destruct (PrintUrlsFromDatabase p cur range w) as [w' o] eqn:E.
  apply PU_shape in E; apply E.
Qed.

Lemma wmain_no_profile w :
  w_profile w = None \/ w_profile w = Some [] ->
  wmain w = (set_out w (w_out w ++ [LText (W "Failed to get user profile path." ++ nl)]), Ret 1).
Proof.
  intros Hp; unfold wmain, bind, get, GetUserProfilePath, wprintf, modify, ret.
  cbv beta iota zeta; destruct Hp as [Hp|Hp]; rewrite Hp; reflexivity.
Qed.

Lemma wmain_keeps w : keeps_files w (fst (wmain w)).
Proof.
  destruct (w_profile w) as [pr|] eqn:Hp; [destruct (list_eq_dec Z.eq_dec pr []) as [->|Hne]|].
  - rewrite wmain_no_profile by auto; apply keeps_files_set_out.
  - rewrite (wmain_eq w pr Hp Hne).
    set (w1 := set_out w (w_out w ++ [hdr_chrome])).
    pose proof (PU_keeps (pr ++ chrome_suffix) (w_clock w) 600 w1) as K1.
    assert (K0 : keeps_files w w1) by apply keeps_files_set_out.
    destruct (PrintUrlsFromDatabase (pr ++ chrome_suffix) (w_clock w) 600 w1) as [w2 [[]|]];
      simpl in K1; [|exact (keeps_files_trans _ _ _ K0 K1)].
    set (w3 := set_out w2 (w_out w2 ++ [hdr_edge])).
    pose proof (PU_keeps (pr ++ edge_suffix) (w_clock w) 600 w3) as K3.
    assert (K2 : keeps_files w2 w3) by apply keeps_files_set_out.
    destruct (PrintUrlsFromDatabase (pr ++ edge_suffix) (w_clock w) 600 w3) as [w4 [[]|]];
      simpl in *; eauto using keeps_files_trans.
  - rewrite wmain_no_profile by auto; apply keeps_files_set_out.
Qed.

(** ** Truncation of the decoded time *)

Lemma quot_trunc (ts : Z) : Z.quot ts 1000000 = Z.sgn ts * (Z.abs ts / 1000000).
Proof.
  destruct (Z.lt_trichotomy ts 0) as [H|[->|H]].
  - rewrite Z.sgn_neg, Z.abs_neq by lia.
    replace ts with (- (- ts)) at 1 by lia.
    rewrite Z.quot_opp_l, Z.quot_div_nonneg by lia; lia.
  - reflexivity.
  - rewrite Z.sgn_pos, Z.abs_eq, Z.quot_div_nonneg by lia; lia.
Qed.

Lemma decode_nonneg (ts : Z) : 0 <= ts <= int64_max ->
  ConvertWebKitToUnixTime ts = ts / 1000000 - 11644473600.
Proof.
  intros H; rewrite ConvertWebKitToUnixTime_eq.
  - rewrite Z.quot_div_nonneg by lia; reflexivity.
  - unfold in_int64, int64_min, int64_max in *; lia.
Qed.


(** ** The claims *)

(** C1 (code_bug): the temporary snapshot is not removed on the early
    returns.  On the sample profile, for a missing Chrome store (copy
    failure), for a store whose [sqlite3_open16] fails and for a file that
    is no SQLite database (prepare failure), the file [GetTempFileNameW]
    created ([dbc0007.TMP], free before the call) is still present after
    [PrintUrlsFromDatabase] returns; only a run that reaches the query
    removes it. *)
Lemma C1_temp_file_left_behind :
  let tmp := temp_name tmpd 7 in
  w_fs (sample_world []) tmp = None /\
  w_fs (fst (PrintUrlsFromDatabase chrome_path now 600 (sample_world []))) tmp
    = Some (mk_file EmptyFile now true) /\
  w_fs (fst (PrintUrlsFromDatabase chrome_path now 600
               (open_fail_world [(chrome_path, db_file sample_db)]))) tmp
    = Some (mk_file (SqliteDb (Some sample_db)) 5 true) /\
  w_fs (fst (PrintUrlsFromDatabase chrome_path now 600
               (sample_world [(chrome_path, mk_file OtherFile 5 true)]))) tmp
    = Some (mk_file OtherFile 5 true) /\
  w_fs (fst (PrintUrlsFromDatabase chrome_path now 600
               (sample_world [(chrome_path, db_file sample_db)]))) tmp = None.
Proof. vm_compute; repeat split; reflexivity. Qed.

(** C2 (code_bug): a store with one row whose url is [NULL] and nine rows
    with a url, all ten within the window: the row loop reaches the
    [NULL] row ([sqlite3_column_text] returns a null pointer), and building
    the [std::string] argument of [ConvertUtf8ToWide] from it is undefined
    behaviour; the extraction does not skip the row and print nine
    entries. *)
Lemma C2_null_url_row_is_not_skipped :
  length (query_rows null_url_db) = 10%nat /\
  length (filter (fun r : row => match fst r with Some _ => true | None => false end)
                 (query_rows null_url_db)) = 9%nat /\
  forallb (in_window now 600) (query_rows null_url_db) = true /\
  snd (PrintUrlsFromDatabase chrome_path now 600 (sample_world [(chrome_path, db_file null_url_db)]))
    = Crash.
Proof. vm_compute; repeat split; reflexivity. Qed.







(** C5: on every [int64_t] input the decoder returns
    [encoded / 1000000 - 11644473600] with C++ division, which truncates
    toward zero: the quotient is the sign of the input times the floor of
    its magnitude divided by 10^6. *)
Theorem decode_truncates ts :
  in_int64 ts ->
  ConvertWebKitToUnixTime ts = Z.quot ts 1000000 - 11644473600 /\
  Z.quot ts 1000000 = Z.sgn ts * (Z.abs ts / 1000000).
Proof.
  intros H; split; [apply ConvertWebKitToUnixTime_eq, H|apply quot_trunc].
Qed.

Lemma decode_truncates_witness :
  in_int64 (- 1999999) /\
  (ConvertWebKitToUnixTime (- 1999999) = Z.quot (- 1999999) 1000000 - 11644473600 /\
   Z.quot (- 1999999) 1000000 = Z.sgn (- 1999999) * (Z.abs (- 1999999) / 1000000)).
Proof.
  assert (H : in_int64 (- 1999999)) by (unfold in_int64, int64_min, int64_max; lia).
  split; [exact H|exact (decode_truncates (- 1999999) H)].
Defined.
(** C6: whatever makes the Chrome extraction fail (copy, open or prepare),
    [wmain] goes on to the Edge store; when that store can be copied, is a
    history database whose in-window rows can all be printed (a url, and a
    time [gmtime_s] does not end the process on), and a temporary name is
    still free, all its in-window rows are printed, each once, in
    descending visit time; the Chrome part prints diagnostics only (no
    entry), and the exit status is 0. *)
Theorem wmain_second_store_after_first_fails w pr d v1 v2 f2 t2 :
  w_profile w = Some pr -> pr <> [] ->
  temp_dir_ok w d -> free_temp w d v1 -> free_temp w d v2 -> v1 <> v2 ->
  store_fails w (pr ++ chrome_suffix) ->
  (forall k, (w_open_calls w < k)%nat -> w_open_ok w k = true) ->
  w_fs w (pr ++ edge_suffix) = Some f2 -> f_share_read f2 = true ->
  w_copy_error w (pr ++ edge_suffix) = None ->
  f_data f2 = SqliteDb (Some t2) ->
  (forall r, In r (join_rows t2) -> in_window (w_clock w) 600 r = true -> row_ok r = true) ->
  exists w' D rs,
    wmain w = (w', Ret 0) /\
    w_out w' = w_out w ++ [hdr_chrome] ++ D ++ [hdr_edge] ++ map entry_of rs /\
    D <> [] /\ entries D = [] /\
    Permutation (map with_url rs) (filter (in_window (w_clock w) 600) (join_rows t2)) /\
    StronglySorted (fun a b : string * Z => snd b <= snd a) rs.
Proof.
  intros Hp Hne Hd Hv1 Hv2 Hv12 Hfail Hopen Hf2 Hsh2 Hce2 Hdata2 Hrows.
  rewrite (wmain_eq w pr Hp Hne).
  set (w1 := set_out w (w_out w ++ [hdr_chrome])).
  destruct (PrintUrlsFromDatabase (pr ++ chrome_suffix) (w_clock w) 600 w1) as [w2 o2] eqn:E1.
  apply (PU_fail _ _ _ _ _ _ d v1) in E1; try exact Hd; try exact Hv1;
    try (apply store_fails_set_out; exact Hfail); try exact Hopen.
  destruct E1 as (-> & Env & Keep & (tmp & Ch) & Ok2 & D & Eout2 & HD & ED).
  destruct Env as (P1 & P2 & P3 & P4 & P5 & P6 & P7).
  destruct (free_temp_after w1 w2 d v1 v2 tmp Hv1 Hv2 Hv12 Ch) as [v Hv].
  set (w3 := set_out w2 (w_out w2 ++ [hdr_edge])).
  destruct (PU_ok (pr ++ edge_suffix) (w_clock w) 600 w3 f2 t2 d v)
    as (w' & rs & E2 & _ & _ & Eout & Hrs & _).
  - apply Keep; exact Hf2.
  - exact Hsh2.
  - simpl; rewrite P4; exact Hce2.
  - exact Hdata2.
  - exact Ok2.
  - destruct Hd as (Ed & Ewr & Hl).
    split; [simpl; rewrite P1; exact Ed|split; [simpl; rewrite P2; exact Ewr|exact Hl]].
  - exact Hv.
  - intros r Hin Hw; apply Hrows; [|exact Hw].
    exact (Permutation_in _ (query_rows_perm t2) Hin).
  - rewrite E2; exists w', D, rs; split; [reflexivity|].
    split; [rewrite Eout; simpl; rewrite Eout2; simpl; repeat rewrite <- app_assoc; reflexivity|].
    split; [exact HD|]; split; [exact ED|]; split.
    + rewrite Hrs; apply Permutation_filter_bool, query_rows_perm.
    + apply (printed_sorted (w_clock w) 600 t2 rs []); rewrite app_nil_r; exact Hrs.
Qed.

Lemma wmain_second_store_after_first_fails_witness :
  exists w' D rs,
    wmain (sample_world [(edge_path, db_file sample_db)]) = (w', Ret 0) /\
    w_out w' = w_out (sample_world [(edge_path, db_file sample_db)])
               ++ [hdr_chrome] ++ D ++ [hdr_edge] ++ map entry_of rs /\
    D <> [] /\ entries D = [] /\
    Permutation (map with_url rs)
      (filter (in_window (w_clock (sample_world [(edge_path, db_file sample_db)])) 600)
              (join_rows sample_db)) /\
    StronglySorted (fun a b : string * Z => snd b <= snd a) rs.
Proof.
  apply (wmain_second_store_after_first_fails (sample_world [(edge_path, db_file sample_db)])
           prof tmpd 7 8 (db_file sample_db) sample_db).
  - reflexivity.
  - discriminate.
  - split; [reflexivity|split; [reflexivity|vm_compute; discriminate]].
  - split; [lia|vm_compute; reflexivity].
  - split; [lia|vm_compute; reflexivity].
  - discriminate.
  - left; split; [intros (f & Hf & _); vm_compute in Hf; discriminate Hf|reflexivity].
  - intros k _; reflexivity.
  - vm_compute; reflexivity.
  - reflexivity.
  - reflexivity.
  - reflexivity.
  - intros r Hin _; vm_compute in Hin.
    repeat (destruct Hin as [<-|Hin]; [vm_compute; reflexivity|]); destruct Hin.
Defined.

(** C7 (code_bug): the formatter does not always return.  For the time
    10^11 (in the year 5138), beyond [_MAX__TIME64_T + 13 h], [gmtime_s]
    calls the invalid parameter handler and the process ends; a visit at
    that time is in the future, hence in the window, and the extraction of
    a store holding it ends the program.  (A time before
    1969-12-31 12:00:00 UTC does give the sentinel.) *)
Lemma C7_far_future_time_ends_process :
  FormatUnixTimeToUTC 100000000000 = Crash /\
  FormatUnixTimeToUTC (-43201) = Ret (W "Invalid time") /\
  in_window now 600 (Some "https://example.com/"%string, enc 100000000000) = true /\
  snd (PrintUrlsFromDatabase chrome_path now 600
         (sample_world [(chrome_path, db_file far_future_db)])) = Crash.
Proof. vm_compute; repeat split; reflexivity. Qed.



(** C9: no run changes or removes a file that exists before it (its
    content, time and sharing included): neither one extraction nor the
    whole program; in particular the source stores are unchanged. *)
Theorem sources_unchanged p cur range w :
  keeps_files w (fst (PrintUrlsFromDatabase p cur range w)) /\ keeps_files w (fst (wmain w)).
Proof. split; [apply PU_keeps|apply wmain_keeps]. Qed.

(** C10 (code_bug): without a profile path the exit status is 1, but with
    one the program does not always return 0: a [NULL] url in the window
    of the Chrome store ends it in undefined behaviour. *)
Lemma C10_no_exit_status_with_profile :
  snd (wmain no_profile_world) = Ret 1 /\
  w_profile (sample_world [(chrome_path, db_file null_url_db)]) = Some prof /\
  snd (wmain (sample_world [(chrome_path, db_file null_url_db)])) = Crash.
Proof. vm_compute; repeat split; reflexivity. Qed.

(** ** Further properties of the code *)

Lemma quot_mono a b : a <= b -> Z.quot a 1000000 <= Z.quot b 1000000.
Proof. intros H; apply Z.quot_le_mono; lia. Qed.

(** X1: on 64-bit inputs the WebKit-to-Unix conversion is monotone: a
    later WebKit timestamp never decodes to an earlier Unix second. *)
Theorem decode_monotone ts1 ts2 :
  in_int64 ts1 -> in_int64 ts2 -> ts1 <= ts2 ->
  ConvertWebKitToUnixTime ts1 <= ConvertWebKitToUnixTime ts2.
Proof.
  intros H1 H2 H; rewrite !ConvertWebKitToUnixTime_eq by assumption.
  pose proof (quot_mono _ _ H); lia.
Qed.

(** X2: the conversion undoes the WebKit encoding: the timestamp of Unix
    second [t] plus any sub-second offset (0 to 999999 microseconds)
    decodes to [t], for every non-negative encoded value within [int64_t]. *)
Theorem decode_enc t k :
  0 <= k < 1000000 -> 0 <= enc t -> enc t + k <= int64_max ->
  ConvertWebKitToUnixTime (enc t + k) = t.
Proof.
  intros Hk H0 H1; rewrite decode_nonneg by lia; unfold enc.
  rewrite Z.div_add_l by lia. rewrite Z.div_small by lia. lia.
Qed.


Lemma utf8_decode_encode c rest :
  scalar_ok c -> utf8_decode (utf8_encode c ++ rest) = utf16_of_scalar c ++ utf8_decode rest.
Proof.
  intros [Hc Hs]; unfold utf8_encode.
  pose proof (Z.div_mod c 64 ltac:(lia)).
  pose proof (Z.mod_pos_bound c 64 ltac:(lia)).
  pose proof (Z.div_mod (c / 64) 64 ltac:(lia)).
  pose proof (Z.mod_pos_bound (c / 64) 64 ltac:(lia)).
  pose proof (Z.div_mod (c / 4096) 64 ltac:(lia)).
  pose proof (Z.mod_pos_bound (c / 4096) 64 ltac:(lia)).
  assert (E1 : c / 64 / 64 = c / 4096) by (rewrite Z.div_div by lia; reflexivity).
  assert (E2 : c / 4096 / 64 = c / 262144) by (rewrite Z.div_div by lia; reflexivity).
  destruct (Z_lt_le_dec c 128) as [A|A].
  { unfold utf16_of_scalar; bool_facts; cbn [app]; remember c as b0 eqn:Hb0; simpl; bool_facts; reflexivity. }
  destruct (Z_lt_le_dec c 2048) as [B|B].
  { assert (c / 64 < 32) by (apply Z.div_lt_upper_bound; lia).
    assert (2 <= c / 64) by (apply Z.div_le_lower_bound; lia).
    unfold utf16_of_scalar; bool_facts; cbn [app].
    remember (192 + c / 64) as b0 eqn:Hb0; remember (128 + c mod 64) as b1 eqn:Hb1.
    simpl; unfold is_cont; bool_facts; simpl.
    f_equal; lia. }
  destruct (Z_lt_le_dec c 65536) as [C|C].
  { assert (c / 4096 < 16) by (apply Z.div_lt_upper_bound; lia).
    assert (0 <= c / 4096) by (apply Z.div_pos; lia).
    unfold utf16_of_scalar; bool_facts; cbn [app].
    remember (224 + c / 4096) as b0 eqn:Hb0; remember (128 + c / 64 mod 64) as b1 eqn:Hb1;
      remember (128 + c mod 64) as b2 eqn:Hb2.
    simpl; unfold is_cont.
    replace ((b0 - 224) * 4096 + (b1 - 128) * 64 + (b2 - 128)) with c by lia.
    destruct (Z_lt_le_dec c 55296); [|destruct (Z_le_gt_dec c 57343); [exfalso; apply Hs; lia|]];
      bool_facts; simpl; reflexivity. }
  { assert (c / 262144 < 5) by (apply Z.div_lt_upper_bound; lia).
    assert (0 <= c / 262144) by (apply Z.div_pos; lia).
    bool_facts; cbn [app].
    remember (240 + c / 262144) as b0 eqn:Hb0; remember (128 + c / 4096 mod 64) as b1 eqn:Hb1;
      remember (128 + c / 64 mod 64) as b2 eqn:Hb2; remember (128 + c mod 64) as b3 eqn:Hb3.
    simpl; unfold is_cont.
    replace ((b0 - 240) * 262144 + (b1 - 128) * 4096 + (b2 - 128) * 64 + (b3 - 128)) with c by lia.
    bool_facts; reflexivity. }
Qed.

Lemma utf8_decode_encode_list cs :
  Forall scalar_ok cs -> utf8_decode (flat_map utf8_encode cs) = flat_map utf16_of_scalar cs.
Proof.
  induction 1 as [|c cs Hc _ IH]; [reflexivity|].
  simpl; rewrite utf8_decode_encode by exact Hc; rewrite IH; reflexivity.
Qed.

Lemma utf8_encode_nil c : utf8_encode c <> [].
Proof. unfold utf8_encode; repeat destruct (_ <? _); discriminate. Qed.

Lemma c_str_no_nul (s : wstring) : Forall (fun u => u <> 0) s -> c_str (s ++ [0]) = s.
Proof.
  induction 1 as [|u s Hu _ IH]; [reflexivity|].
  simpl; replace (u =? 0) with false by (symmetry; apply Z.eqb_neq; exact Hu); rewrite IH; reflexivity.
Qed.

Lemma utf16_of_scalar_nonzero c : 0 < c -> Forall (fun u => u <> 0) (utf16_of_scalar c).
Proof.
  intros Hc; unfold utf16_of_scalar; destruct (c <? 65536) eqn:E.
  - constructor; [lia|constructor].
  - apply Z.ltb_ge in E.
    pose proof (Z.div_pos (c - 65536) 1024 ltac:(lia) ltac:(lia)).
    pose proof (Z.mod_pos_bound (c - 65536) 1024 ltac:(lia)).
    repeat constructor; lia.
Qed.

(** X3: for the UTF-8 encoding of a non-empty list of Unicode scalar
    values (no NUL, no surrogate), [ConvertUtf8ToWide] returns their UTF-16
    encoding followed by one NUL, and its C string is exactly that UTF-16
    encoding. *)
Theorem ConvertUtf8ToWide_utf8 cs :
  cs <> [] -> Forall scalar_ok cs ->
  ConvertUtf8ToWide (flat_map utf8_encode cs) = flat_map utf16_of_scalar cs ++ [0]
  /\ c_str (ConvertUtf8ToWide (flat_map utf8_encode cs)) = flat_map utf16_of_scalar cs.
Proof.
  intros Hne Hok.
  assert (E : ConvertUtf8ToWide (flat_map utf8_encode cs) = flat_map utf16_of_scalar cs ++ [0]).
  { destruct cs as [|c cs']; [congruence|].
    unfold ConvertUtf8ToWide, MultiByteToWideChar.
    rewrite utf8_decode_encode_list by exact Hok.
    simpl flat_map.
    destruct (utf8_encode c) as [|b bs] eqn:Eb; [exfalso; exact (utf8_encode_nil c Eb)|].
    simpl app at 1.
    destruct (_ =? 0) eqn:Z0; [|reflexivity].
    apply Z.eqb_eq in Z0; rewrite !length_app in Z0; simpl in Z0; lia. }
  split; [exact E|].
  rewrite E; apply c_str_no_nul; clear E Hne.
  induction Hok as [|c cs' Hc _ IH]; [constructor|].
  simpl; apply Forall_app; split; [apply utf16_of_scalar_nonzero; destruct Hc; lia|exact IH].
Qed.

Lemma ConvertUtf8ToWide_utf8_witness :
  ([233; 128512] : list Z) <> [] /\ Forall scalar_ok [233; 128512] /\
  ConvertUtf8ToWide (flat_map utf8_encode [233; 128512]) = [233; 55357; 56832; 0] /\
  c_str (ConvertUtf8ToWide (flat_map utf8_encode [233; 128512])) = [233; 55357; 56832].
Proof.
  assert (H1 : ([233; 128512] : list Z) <> []) by discriminate.
  assert (H2 : Forall scalar_ok [233; 128512])
    by (repeat constructor; unfold scalar_ok; lia).
  split; [exact H1|]; split; [exact H2|].
  exact (ConvertUtf8ToWide_utf8 [233; 128512] H1 H2).
Defined.

Lemma utf8_decode_nonzero n bs :
  (length bs <= n)%nat -> Forall (fun b => 0 < b < 256) bs -> Forall (fun u => u <> 0) (utf8_decode bs).
Proof.
  revert bs; induction n as [|n IH]; intros bs Hl Hb.
  - destruct bs; [constructor|simpl in Hl; lia].
  - destruct bs as [|b0 r0]; [constructor|].
    inversion Hb as [|? ? Hb0 Hr0]; subst.
    simpl in Hl.
    assert (IH0 : Forall (fun u => u <> 0) (utf8_decode r0)) by (apply IH; [lia|exact Hr0]).
    simpl.
    destruct (b0 <? 128) eqn:E0; [constructor; [lia|exact IH0]|].
    apply Z.ltb_ge in E0.
    destruct r0 as [|b1 r1]; [constructor; [lia|exact IH0]|].
    inversion Hr0 as [|? ? Hb1 Hr1]; subst.
    assert (IH1 : Forall (fun u => u <> 0) (utf8_decode r1)) by (apply IH; [simpl in Hl; lia|exact Hr1]).
    destruct ((194 <=? b0) && (b0 <=? 223) && is_cont b1) eqn:E1.
    { unfold is_cont in E1; repeat rewrite andb_true_iff in E1.
      destruct E1 as [[A B] [C D]]; apply Z.leb_le in A, B, C; apply Z.ltb_lt in D.
      constructor; [lia|exact IH1]. }
    destruct r1 as [|b2 r2]; [constructor; [lia|exact IH0]|].
    inversion Hr1 as [|? ? Hb2 Hr2]; subst.
    assert (IH2 : Forall (fun u => u <> 0) (utf8_decode r2)) by (apply IH; [simpl in Hl; lia|exact Hr2]).
    match goal with |- context [if ?c then ?x :: utf8_decode r2 else _] => destruct c eqn:E2 end.
    { repeat rewrite andb_true_iff in E2.
      destruct E2 as [[[[[A B] _] _] C] _]; apply Z.leb_le in A, B, C.
      constructor; [lia|exact IH2]. }
    destruct r2 as [|b3 r3]; [constructor; [lia|exact IH0]|].
    inversion Hr2 as [|? ? Hb3 Hr3]; subst.
    assert (IH3 : Forall (fun u => u <> 0) (utf8_decode r3)) by (apply IH; [simpl in Hl; lia|exact Hr3]).
    match goal with |- context [if ?c then utf16_of_scalar ?x ++ utf8_decode r3 else _] => destruct c eqn:E3 end.
    { repeat rewrite andb_true_iff in E3.
      destruct E3 as [[_ C] _]; apply Z.leb_le in C.
      apply Forall_app; split; [apply utf16_of_scalar_nonzero; lia|exact IH3]. }
    constructor; [lia|exact IH0].
Qed.

Lemma bytes_of_range s : Forall (fun b => 0 < b < 256) (bytes_of s).
Proof.
  induction s as [|c s IH]; simpl; [constructor|].
  pose proof (nat_ascii_bounded c).
  destruct (Z.of_nat (nat_of_ascii c) =? 0) eqn:E; [constructor|].
  apply Z.eqb_neq in E; constructor; [lia|exact IH].
Qed.

(** X4: for any C string, the C string of its [ConvertUtf8ToWide] result
    (what [wprintf] prints) is the whole decoding of its bytes: no decoded
    code unit is NUL, so the printed text is never cut short. *)
Theorem printed_url_is_full_decoding s :
  c_str (ConvertUtf8ToWide (bytes_of s)) = utf8_decode (bytes_of s).
Proof.
  unfold ConvertUtf8ToWide.
  destruct (bytes_of s) as [|b bs] eqn:Eb; [reflexivity|].
  unfold MultiByteToWideChar.
  destruct (_ =? 0) eqn:Z0.
  - apply Z.eqb_eq in Z0; rewrite length_app in Z0; simpl in Z0; lia.
  - apply c_str_no_nul, (utf8_decode_nonzero (length (b :: bs))); [lia|].
    rewrite <- Eb; apply bytes_of_range.
Qed.

Lemma decode_monotone_witness :
  in_int64 (enc 1704067200) /\ in_int64 (enc 1704067740) /\ enc 1704067200 <= enc 1704067740 /\
  ConvertWebKitToUnixTime (enc 1704067200) <= ConvertWebKitToUnixTime (enc 1704067740).
Proof.
  assert (H1 : in_int64 (enc 1704067200)) by (unfold in_int64, int64_min, int64_max, enc; lia).
  assert (H2 : in_int64 (enc 1704067740)) by (unfold in_int64, int64_min, int64_max, enc; lia).
  assert (H : enc 1704067200 <= enc 1704067740) by (unfold enc; lia).
  split; [exact H1|split; [exact H2|split; [exact H|exact (decode_monotone _ _ H1 H2 H)]]].
Defined.

Lemma decode_enc_witness :
  0 <= 999999 < 1000000 /\ 0 <= enc now /\ enc now + 999999 <= int64_max /\
  ConvertWebKitToUnixTime (enc now + 999999) = now.
Proof.
  assert (H1 : 0 <= 999999 < 1000000) by lia.
  assert (H2 : 0 <= enc now) by (unfold enc, now; lia).
  assert (H3 : enc now + 999999 <= int64_max) by (unfold enc, now, int64_max; lia).
  split; [exact H1|split; [exact H2|split; [exact H3|exact (decode_enc now 999999 H1 H2 H3)]]].
Defined.
























Lemma copy_file_fs from to w w' o :
  copy_file from to w = (w', o) -> o <> Crash /\ changes_at_most w w' to.
Proof.
  unfold copy_file.
  destruct (w_fs w from) as [f|];
    [|intros H; injection H as <- <-; split; [discriminate|intros q _; reflexivity]].
  destruct (path_eqb from to);
    [intros H; injection H as <- <-; split; [discriminate|intros q _; reflexivity]|].
  destruct (negb (f_share_read f));
    [intros H; injection H as <- <-; split; [discriminate|intros q _; reflexivity]|].
  destruct (w_copy_error w from);
    intros H; injection H as <- <-; split; try discriminate; [intros q _; reflexivity|].
  intros q Hq; simpl; apply fs_set_other; exact Hq.
Qed.

Lemma changes_at_most_trans w1 w2 w3 tmp :
  changes_at_most w1 w2 tmp -> changes_at_most w2 w3 tmp -> changes_at_most w1 w3 tmp.
Proof. unfold changes_at_most; intros A B q Hq; rewrite B, A; auto. Qed.

(** The first steps of [CopyDatabaseToTemp]: the temporary directory and
    the free name [GetTempFileNameW] took. *)
Lemma CDT_temp p w w1 b tmp :
  CopyDatabaseToTemp p w = (w1, Ret (b, tmp)) ->
  (b = false /\ w1 = w /\ w_temp_path w = None) \/
  (b = false /\ exists d, w_temp_path w = Some d /\
     w1 = set_temp_calls w (S (w_temp_calls w))) \/
  (exists d v, w_temp_path w = Some d /\ w_temp_writable w = true /\ free_temp w d v /\
     tmp = temp_name d v /\ changes_at_most w w1 tmp).
Proof.
  unfold CopyDatabaseToTemp, bind, GetTempPathW, ret.
  destruct (w_temp_path w) as [d|] eqn:Ed; [|intros H; injection H as <- <- _; left; auto].
  destruct (GetTempFileNameW d w) as [w2 o2] eqn:Eg.
  apply GetTempFileNameW_spec in Eg.
  destruct Eg as [[-> ->] | (v & -> & Hfree & Hv & Ewr & _ & ->)];
    [intros H; injection H as <- <- _; right; left; eauto|].
  match goal with |- context [copy_file ?a ?b ?c] =>
    destruct (copy_file a b c) as [w3 o3] eqn:Ecp end.
  apply copy_file_fs in Ecp as [Hnc Ch3].
  assert (Ch : changes_at_most w w3 (temp_name d v)).
  { refine (changes_at_most_trans _ _ _ _ _ Ch3).
    intros q Hq; simpl; apply fs_set_other, Hq. }
  destruct o3 as [[e|]|]; [| |contradiction]; simpl;
    intros Hr; injection Hr as <- _ <-; right; right; exists d, v;
    (split; [reflexivity|split; [exact Ewr|split; [split; assumption|split; [reflexivity|]]]]);
    [intros q Hq; simpl; apply Ch, Hq|exact Ch].
Qed.

Lemma CDT_true_detail p w w1 tmp :
  CopyDatabaseToTemp p w = (w1, Ret (true, tmp)) ->
  exists d v, w_temp_path w = Some d /\ w_temp_writable w = true /\ free_temp w d v /\
    tmp = temp_name d v.
Proof.
  intros E; destruct (CDT_temp _ _ _ _ _ E) as [(H & _) | [(H & _) | (d & v & A & B & C & D & _)]];
    [discriminate|discriminate|exists d, v; auto].
Qed.

(** X8: when [CopyDatabaseToTemp] returns [true], [tempDbPath] is a name
    [<tempdir>dbcXXXX.TMP] that was free before the call and now holds a
    copy of the source's content and time; no other file changed, nothing
    was printed and no database was opened. *)
Theorem CopyDatabaseToTemp_success p w w1 tmp :
  CopyDatabaseToTemp p w = (w1, Ret (true, tmp)) ->
  exists f d v,
    w_fs w p = Some f /\ w_temp_path w = Some d /\ tmp = temp_name d v /\ 0 <= v < 65536 /\
    w_fs w tmp = None /\
    w_fs w1 tmp = Some (mk_file (f_data f) (f_mtime f) true) /\
    (forall q, q <> tmp -> w_fs w1 q = w_fs w q) /\
    w_out w1 = w_out w /\ w_open_calls w1 = w_open_calls w.
Proof.
  intros E.
  pose proof (CopyDatabaseToTemp_spec _ _ _ _ E) as (_ & Calls & Hfree & Eout & f & Hp & _ & _ & Efs).
  destruct (CDT_true_detail _ _ _ _ E) as (d & v & Ed & _ & [Hv _] & Etmp).
  exists f, d, v.
  split; [exact Hp|]; split; [exact Ed|]; split; [exact Etmp|]; split; [exact Hv|].
  split; [exact Hfree|]; split; [rewrite Efs; apply fs_set_same|].
  split; [intros q Hq; rewrite Efs; apply fs_set_other; exact Hq|].
  split; [exact Eout|exact Calls].
Qed.

Lemma CopyDatabaseToTemp_success_witness :
  CopyDatabaseToTemp chrome_path cdt_world =
    (fst (CopyDatabaseToTemp chrome_path cdt_world), Ret (true, temp_name tmpd 7)) /\
  exists f d v,
    w_fs cdt_world chrome_path = Some f /\ w_temp_path cdt_world = Some d /\
    temp_name tmpd 7 = temp_name d v /\ 0 <= v < 65536 /\
    w_fs cdt_world (temp_name tmpd 7) = None /\
    w_fs (fst (CopyDatabaseToTemp chrome_path cdt_world)) (temp_name tmpd 7) =
      Some (mk_file (f_data f) (f_mtime f) true) /\
    (forall q, q <> temp_name tmpd 7 ->
       w_fs (fst (CopyDatabaseToTemp chrome_path cdt_world)) q = w_fs cdt_world q) /\
    w_out (fst (CopyDatabaseToTemp chrome_path cdt_world)) = w_out cdt_world /\
    w_open_calls (fst (CopyDatabaseToTemp chrome_path cdt_world)) = w_open_calls cdt_world.
Proof.
  assert (E : CopyDatabaseToTemp chrome_path cdt_world =
                (fst (CopyDatabaseToTemp chrome_path cdt_world), Ret (true, temp_name tmpd 7)))
    by (vm_compute; reflexivity).
  split; [exact E|].
  exact (CopyDatabaseToTemp_success _ _ _ _ E).
Defined.

Lemma CDT_fs p w w1 b tmp :
  CopyDatabaseToTemp p w = (w1, Ret (b, tmp)) ->
  (forall q, w_fs w1 q = w_fs w q) \/
  (exists d v, w_temp_path w = Some d /\ free_temp w d v /\ tmp = temp_name d v /\
     changes_at_most w w1 tmp).
Proof.
  intros E; destruct (CDT_temp _ _ _ _ _ E)
    as [(_ & -> & _) | [(_ & d & _ & ->) | (d & v & Ed & _ & Hv & Et & Ch)]].
  - left; reflexivity.
  - left; reflexivity.
  - right; exists d, v; auto.
Qed.

Lemma step_rows_fs cur range rows w :
  w_fs (fst (step_rows cur range rows w)) = w_fs w.
Proof.
  destruct (step_rows_spec cur range rows w) as (rs & tail & o & -> & _); destruct w; reflexivity.
Qed.

(** X9: one extraction leaves every file as it was, except possibly one
    name [<tempdir>dbcXXXX.TMP] that was free before the call. *)
Theorem PrintUrlsFromDatabase_touches_one_temp p cur range w :
  (forall q, w_fs (fst (PrintUrlsFromDatabase p cur range w)) q = w_fs w q) \/
  (exists d v, w_temp_path w = Some d /\ free_temp w d v /\
     changes_at_most w (fst (PrintUrlsFromDatabase p cur range w)) (temp_name d v)).
Proof.
  remember (fst (PrintUrlsFromDatabase p cur range w)) as w' eqn:Hw'.
  unfold PrintUrlsFromDatabase, bind at 1 in Hw'.
  destruct (CopyDatabaseToTemp p w) as [w1 o1] eqn:Ec.
  destruct o1 as [[[|] tmp]|];
    [| |pose proof (CopyDatabaseToTemp_spec _ _ _ _ Ec) as (_ & _ & []); fail].
  - right.
    destruct (CDT_true_detail _ _ _ _ Ec) as (d & v & Ed & _ & Hv & ->).
    exists d, v; split; [exact Ed|]; split; [exact Hv|].
    pose proof (CopyDatabaseToTemp_spec _ _ _ _ Ec) as (_ & _ & _ & _ & f & _ & _ & _ & Efs).
    assert (Htmp : w_fs w1 (temp_name d v) = Some (mk_file (f_data f) (f_mtime f) true))
      by (rewrite Efs; apply fs_set_same).
    apply (changes_at_most_trans _ w1).
    { intros q Hq; rewrite Efs; apply fs_set_other; exact Hq. }
    subst w'; simpl.
    unfold bind at 1; rewrite (sqlite3_open16_exists _ _ _ Htmp).
    destruct (w_open_ok w1 (w_open_calls w1)); [|intros q Hq; reflexivity].
    unfold bind at 1, sqlite3_prepare_v2; simpl; rewrite Htmp; simpl.
    destruct (f_data f) as [| |[t|]]; try (intros q Hq; reflexivity).
    unfold bind.
    pose proof (step_rows_fs cur range (query_rows t) (set_open_calls w1 (S (w_open_calls w1)))) as Hs.
    destruct (step_rows cur range (query_rows t) (set_open_calls w1 (S (w_open_calls w1))))
      as [w2 [[]|]]; simpl in Hs; intros q Hq; simpl; [rewrite fs_set_other by exact Hq|];
      rewrite Hs; reflexivity.
  - simpl in Hw'; subst w'; simpl; destruct (CDT_fs _ _ _ _ _ Ec) as [Same | (d & v & Ed & Hv & -> & Ch)];
      [left; exact Same|right; exists d, v; split; [exact Ed|]; split; [exact Hv|exact Ch]].
Qed.


Lemma PU_out p cur range w : exists D, w_out (fst (PrintUrlsFromDatabase p cur range w)) = w_out w ++ D.
Proof.
  destruct (PrintUrlsFromDatabase p cur range w) as [w' o] eqn:E.
  apply PU_shape in E; destruct E as (_ & _ & _ & [(_ & D & Eout & _) | (_ & _ & rs & _ & _ & _ & _ & _ & _ & Eout & _)]);
    simpl; eauto.
Qed.

(** X13: without a profile path (missing or empty) [wmain] prints only
    the failure message, changes nothing else and returns 1; with one it
    returns 0 or ends the process (undefined behaviour, or the invalid
    parameter handler of [gmtime_s]), never 1, and its output starts with
    the Chrome header. *)
Theorem wmain_status w :
  ((w_profile w = None \/ w_profile w = Some []) ->
   wmain w = (set_out w (w_out w ++ [LText (W "Failed to get user profile path." ++ nl)]), Ret 1)) /\
  (forall pr, w_profile w = Some pr -> pr <> [] ->
   (snd (wmain w) = Ret 0 \/ snd (wmain w) = Crash) /\
   exists D, w_out (fst (wmain w)) = w_out w ++ hdr_chrome :: D).
Proof.
  split; [apply wmain_no_profile|].
  intros pr Hp Hne; rewrite (wmain_eq w pr Hp Hne).
  set (w1 := set_out w (w_out w ++ [hdr_chrome])).
  destruct (PU_out (pr ++ chrome_suffix) (w_clock w) 600 w1) as [D1 O1].
  destruct (PrintUrlsFromDatabase (pr ++ chrome_suffix) (w_clock w) 600 w1) as [w2 [[]|]];
    simpl in O1; [|split; [right; reflexivity|exists D1; simpl; rewrite O1; simpl;
                                                  rewrite <- app_assoc; reflexivity]].
  set (w3 := set_out w2 (w_out w2 ++ [hdr_edge])).
  destruct (PU_out (pr ++ edge_suffix) (w_clock w) 600 w3) as [D3 O3].
  destruct (PrintUrlsFromDatabase (pr ++ edge_suffix) (w_clock w) 600 w3) as [w4 [[]|]];
    simpl in O3; simpl; (split; [auto|]);
    exists (D1 ++ hdr_edge :: D3); rewrite O3; simpl; rewrite O1; simpl;
    repeat rewrite <- app_assoc; reflexivity.
Qed.
